(** * Discord bridge bot ([src/bot.ts], the OAuth-gated [DiscordBotService])

    A shallow embedding of the service class: the lifecycle methods
    [start] / [stop], the router [handleMessage], the two forwarders, the two
    command handlers and the account lookup [getUserEmail].

    The asynchronous methods are sequential code (every promise is awaited
    before the next statement runs), so each method is a computation in a
    state-and-exception monad.  The state is the service object's two fields
    together with the chronological trace of everything the method did to the
    outside: console output, HTTP requests with their outcome, replies and
    gateway calls.  What the outside answers is not fixed: an [environment]
    gives the outcome of each external call as a function of the whole
    history, and every theorem quantifies over it. *)

From Stdlib Require Import String Ascii List Bool ZArith Lia.
From Stdlib Require Import Strings.Byte.
From Stdlib Require Import Floats.SpecFloat.
Import ListNotations.
Open Scope string_scope.

(* ================================================================== *)
(** ** JavaScript strings

    A string is its UTF-8 byte sequence.  [startsWith], [includes], [===] and
    [replace] with a string pattern compare code units, which on well-formed
    text agrees with comparing bytes. *)

Module JsString.

(** [s.startsWith(p)] *)
Definition startsWith (s p : string) : bool := String.prefix p s.

(** [s.includes(p)] *)
Fixpoint includes (s p : string) : bool :=
  String.prefix p s ||
  match s with
  | EmptyString => false
  | String _ rest => includes rest p
  end.

(** [s.toLowerCase()]: the letters A-Z are mapped to a-z.  The only
    characters outside ASCII whose lower-case form contains an ASCII letter
    are U+0130 (giving [i] followed by U+0307) and U+212A (giving [k]);
    neither can take part in an occurrence of one of the four media types
    the router searches for, so leaving the other bytes alone does not
    change any [includes] test made on the result. *)
Definition lowerAscii (c : ascii) : ascii :=
  let n := nat_of_ascii c in
  if (65 <=? n)%nat && (n <=? 90)%nat then ascii_of_nat (n + 32) else c.

Fixpoint toLowerCase (s : string) : string :=
  match s with
  | EmptyString => EmptyString
  | String c rest => String (lowerAscii c) (toLowerCase rest)
  end.

(** Number of leading bytes that encode one WhiteSpace or LineTerminator
    character (ECMAScript [String.prototype.trim]), [0] when the text does
    not start with one. *)
Definition spaceAtStart (b : list byte) : nat :=
  match b with
  | x09 :: _ | x0a :: _ | x0b :: _ | x0c :: _ | x0d :: _ | x20 :: _ => 1
  | xc2 :: xa0 :: _ => 2                              (* U+00A0 *)
  | xe1 :: x9a :: x80 :: _ => 3                       (* U+1680 *)
  | xe2 :: x80 :: x80 :: _ | xe2 :: x80 :: x81 :: _
  | xe2 :: x80 :: x82 :: _ | xe2 :: x80 :: x83 :: _
  | xe2 :: x80 :: x84 :: _ | xe2 :: x80 :: x85 :: _
  | xe2 :: x80 :: x86 :: _ | xe2 :: x80 :: x87 :: _
  | xe2 :: x80 :: x88 :: _ | xe2 :: x80 :: x89 :: _
  | xe2 :: x80 :: x8a :: _ => 3                       (* U+2000 .. U+200A *)
  | xe2 :: x80 :: xa8 :: _ | xe2 :: x80 :: xa9 :: _ => 3  (* U+2028, U+2029 *)
  | xe2 :: x80 :: xaf :: _ => 3                       (* U+202F *)
  | xe2 :: x81 :: x9f :: _ => 3                       (* U+205F *)
  | xe3 :: x80 :: x80 :: _ => 3                       (* U+3000 *)
  | xef :: xbb :: xbf :: _ => 3                       (* U+FEFF *)
  | _ => 0
  end.

(** The same test on the reversed text, for the trailing end. *)
Definition spaceAtEnd (r : list byte) : nat :=
  match r with
  | x09 :: _ | x0a :: _ | x0b :: _ | x0c :: _ | x0d :: _ | x20 :: _ => 1
  | xa0 :: xc2 :: _ => 2
  | x80 :: x9a :: xe1 :: _ => 3
  | x80 :: x80 :: xe2 :: _ | x81 :: x80 :: xe2 :: _
  | x82 :: x80 :: xe2 :: _ | x83 :: x80 :: xe2 :: _
  | x84 :: x80 :: xe2 :: _ | x85 :: x80 :: xe2 :: _
  | x86 :: x80 :: xe2 :: _ | x87 :: x80 :: xe2 :: _
  | x88 :: x80 :: xe2 :: _ | x89 :: x80 :: xe2 :: _
  | x8a :: x80 :: xe2 :: _ => 3
  | xa8 :: x80 :: xe2 :: _ | xa9 :: x80 :: xe2 :: _ => 3
  | xaf :: x80 :: xe2 :: _ => 3
  | x9f :: x81 :: xe2 :: _ => 3
  | x80 :: x80 :: xe3 :: _ => 3
  | xbf :: xbb :: xef :: _ => 3
  | _ => 0
  end.

Fixpoint strip (space : list byte -> nat) (fuel : nat) (b : list byte)
  : list byte :=
  match fuel with
  | O => b
  | S fuel' =>
      match space b with
      | O => b
      | n => strip space fuel' (skipn n b)
      end
  end.

(** [s.trim()] *)
Definition trim (s : string) : string :=
  let b := list_byte_of_string s in
  let front := strip spaceAtStart (length b) b in
  let back := strip spaceAtEnd (length front) (rev front) in
  string_of_list_byte (rev back).

(** [s.replace(pat, rep)] with a string pattern: the first occurrence only.
    The replacements used by the service contain no [$]. *)
Fixpoint replace (s pat rep : string) : string :=
  if String.prefix pat s
  then rep ++ substring (String.length pat) (String.length s - String.length pat) s
  else match s with
       | EmptyString => EmptyString
       | String c rest => String c (replace rest pat rep)
       end.

(** [array.includes(x)] on an array of strings. *)
Definition arrayIncludes (xs : list string) (x : string) : bool :=
  existsb (fun y => String.eqb y x) xs.

End JsString.

(* ================================================================== *)
(** ** JavaScript values, as [JSON.parse] produces them *)

Module JsValue.

Set Warnings "-register-all".

Inductive value : Type :=
| VUndefined
| VNull
| VBool (b : bool)
| VNum (x : spec_float)
| VStr (s : string)
| VArr (items : list value)
| VObj (props : list (string * value)).

(** ToBoolean *)
Definition truthy (v : value) : bool :=
  match v with
  | VUndefined | VNull => false
  | VBool b => b
  | VNum (S754_zero _) | VNum S754_nan => false
  | VNum _ => true
  | VStr s => negb (String.eqb s "")
  | VArr _ | VObj _ => true
  end.

(** Own property of a parsed object; the list holds one binding per key. *)
Fixpoint lookup (key : string) (props : list (string * value)) : value :=
  match props with
  | [] => VUndefined
  | (k, v) :: rest => if String.eqb k key then v else lookup key rest
  end.

(** [a || b] *)
Definition orElse (a b : value) : value := if truthy a then a else b.

End JsValue.

Export JsValue.

(* ================================================================== *)
(** ** The outside world: errors, HTTP, Discord messages, console *)

(** Thrown values.  Everything thrown in this program is an [Error]
    instance. *)
Inductive error : Type :=
| Error (message : string)
| TypeError (message : string)
| FetchStatusError (status : Z) (statusText : string).
    (* new Error(`Failed to fetch attachment: ${res.status} ${res.statusText}`) *)

Inductive method : Type := GET | POST.

(** The entries of a [FormData].  A field records the value handed to
    [formData.set], which [FormData] keeps as a string: a string as it is,
    any other value in its string form.  A file records the bytes and the
    type of the [Blob] handed over, and the file name. *)
Inductive form_part : Type :=
| FormField (name : string) (content : value)
| FormFile (name : string) (bytes : list byte) (type : string) (filename : string).

Inductive request_body : Type :=
| NoBody
| FormData (parts : list form_part)
| JsonText (v : value).            (* JSON.stringify(v) *)

Record request : Type := {
  req_method : method;
  req_url : string;
  req_headers : list (string * string);
  req_body : request_body
}.

Record response : Type := {
  status : Z;
  statusText : string;
  contentTypeHeader : option string;     (* headers.get('content-type') *)
  bodyJson : option value;               (* None: json() rejects *)
  bodyBytes : option (list byte)         (* None: arrayBuffer() rejects *)
}.

(** [response.ok] *)
Definition ok (r : response) : bool := (200 <=? status r)%Z && (status r <? 300)%Z.

Inductive fetch_outcome : Type :=
| Rejected (e : error)
| Responded (r : response).

Record User : Type := {
  user_id : string;
  username : string;
  discriminator : string;
  tag : string;
  bot : bool
}.

Record Attachment : Type := {
  att_name : string;
  att_url : string;
  att_contentType : option string;
  att_size : Z
}.

Record Message : Type := {
  id : string;
  channelId : string;
  guildId : option string;
  author : User;
  content : string;
  attachments : list Attachment
}.

(** What [message.reply] is given. *)
Inductive reply_payload : Type :=
| ReplyText (text : string)
| ReplyAuthLink (authUrl : value)        (* the Google link, flags SuppressEmbeds *)
| ReplyAuthFailed (reason : value)       (* result.error || 'Unknown error' *)
| ReplyStatusActive (user : value).      (* email and registration date of user *)

(** One argument of a console call. *)
Inductive log_arg : Type :=
| LStr (s : string)
| LOpt (s : option string)
| LNum (n : Z)
| LLength (s : string)                   (* s.length *)
| LPreview (s : string)                  (* first 100 units and an ellipsis *)
| LVal (v : value)
| LJson (v : value)                      (* JSON.stringify(v, null, 2) *)
| LHeaders (r : response)
| LKeys (keys : list string)
| LErr (e : error)
| LStack (e : error).                    (* e.stack *)

Inductive level : Type := Info | Err.

Inductive event : Type :=
| EvLog (lvl : level) (args : list log_arg)
| EvFetch (req : request) (out : fetch_outcome)
| EvReply (to : string) (payload : reply_payload) (failure : option error)
| EvLogin (token : option string) (failure : option error)
| EvDestroy (failure : option error).

(** The outside's answers, each a function of the history so far. *)
Record environment : Type := {
  net_fetch : list event -> request -> fetch_outcome;
  channel_reply : list event -> Message -> reply_payload -> option error;
  gateway_login : list event -> option string -> option error;
  gateway_destroy : list event -> option error
}.

(* ================================================================== *)
(** ** The service object and its monad *)

(** [this.config]: a getter that reads the process environment at each use;
    the environment variables do not change while a method runs, so a method
    takes the snapshot as an argument. *)
Record Config : Type := {
  BOT_TOKEN : option string;
  RECEIVER_URL : string;
  RECEIVER_TOKEN : string;
  ALLOWED_CHANNELS : list string
}.

Inductive Intent : Type := Guilds | GuildMessages | DirectMessages | MessageContent.
Inductive Partial : Type := PartialChannel | PartialMessage.

(** The gateway client with the listeners registered on it. *)
Record Client : Type := {
  intents : list Intent;
  partials : list Partial;
  onceClientReady : nat;
  onMessageCreate : nat
}.

Record world : Type := {
  trace : list event;
  client : option Client;          (* this.client *)
  isRunning : bool                 (* this.isRunning *)
}.

Definition emit (ev : event) (w : world) : world :=
  {| trace := trace w ++ [ev]; client := client w; isRunning := isRunning w |}.

Inductive outcome (A : Type) : Type :=
| Returned (a : A)
| Thrown (e : error).

Arguments Returned {A} a.
Arguments Thrown {A} e.

Definition M (A : Type) : Type := environment -> world -> outcome A * world.

Definition ret {A} (a : A) : M A := fun _ w => (Returned a, w).

Definition throw {A} (e : error) : M A := fun _ w => (Thrown e, w).

Definition bind {A B} (m : M A) (k : A -> M B) : M B :=
  fun env w =>
    match m env w with
    | (Returned a, w') => k a env w'
    | (Thrown e, w') => (Thrown e, w')
    end.

(** [try { m } catch (e) { handler e }] *)
Definition tryCatch {A} (m : M A) (handler : error -> M A) : M A :=
  fun env w =>
    match m env w with
    | (Returned a, w') => (Returned a, w')
    | (Thrown e, w') => handler e env w'
    end.

Declare Scope js_scope.
Delimit Scope js_scope with js.
Notation "x <- m ;; k" := (bind m (fun x => k))
  (at level 61, m at next level, right associativity) : js_scope.
Notation "m ;; k" := (bind m (fun _ => k))
  (at level 61, right associativity) : js_scope.
Open Scope js_scope.

(** [for (const x of xs) { body x }] *)
Fixpoint forEach {A} (xs : list A) (body : A -> M unit) : M unit :=
  match xs with
  | [] => ret tt
  | x :: rest => body x ;; forEach rest body
  end.

(** *** Primitive effects *)

Definition console_log (args : list log_arg) : M unit :=
  fun _ w => (Returned tt, emit (EvLog Info args) w).

Definition console_error (args : list log_arg) : M unit :=
  fun _ w => (Returned tt, emit (EvLog Err args) w).

(** [await fetch(...)] *)
Definition fetch (req : request) : M response :=
  fun env w =>
    let out := net_fetch env (trace w) req in
    let w' := emit (EvFetch req out) w in
    match out with
    | Rejected e => (Thrown e, w')
    | Responded r => (Returned r, w')
    end.

(** [await response.json()] *)
Definition json (r : response) : M value :=
  match bodyJson r with
  | Some v => ret v
  | None => throw (Error "invalid json response body")
  end.

(** [await response.arrayBuffer()] *)
Definition arrayBuffer (r : response) : M (list byte) :=
  match bodyBytes r with
  | Some b => ret b
  | None => throw (Error "body stream failed")
  end.

(** [await message.reply(payload)] *)
Definition reply (message : Message) (payload : reply_payload) : M unit :=
  fun env w =>
    let failure := channel_reply env (trace w) message payload in
    let w' := emit (EvReply (id message) payload failure) w in
    match failure with
    | Some e => (Thrown e, w')
    | None => (Returned tt, w')
    end.

(** [v.key] for a value that came out of [JSON.parse]: reading a property of
    [null] or [undefined] throws, a primitive or an array has none of the keys
    the service reads. *)
Definition getProp (v : value) (key : string) : M value :=
  match v with
  | VUndefined | VNull =>
      throw (TypeError ("Cannot read properties of null (reading '" ++ key ++ "')"))
  | VObj props => ret (lookup key props)
  | _ => ret VUndefined
  end.

(** [v?.key] *)
Definition optChain (v : value) (key : string) : value :=
  match v with
  | VObj props => lookup key props
  | _ => VUndefined
  end.

Definition getRunning : M bool := fun _ w => (Returned (isRunning w), w).
Definition getClient : M (option Client) := fun _ w => (Returned (client w), w).

Definition setRunning (b : bool) : M unit :=
  fun _ w => (Returned tt, {| trace := trace w; client := client w; isRunning := b |}).

Definition setClient (c : option Client) : M unit :=
  fun _ w => (Returned tt, {| trace := trace w; client := c; isRunning := isRunning w |}).

(** [await this.client.login(token)] *)
Definition login (token : option string) : M unit :=
  fun env w =>
    let failure := gateway_login env (trace w) token in
    let w' := emit (EvLogin token failure) w in
    match failure with
    | Some e => (Thrown e, w')
    | None => (Returned tt, w')
    end.

(** [await this.client.destroy()] *)
Definition destroy : M unit :=
  fun env w =>
    let failure := gateway_destroy env (trace w) in
    let w' := emit (EvDestroy failure) w in
    match failure with
    | Some e => (Thrown e, w')
    | None => (Returned tt, w')
    end.

(** [new Blob(parts, { type }).type]: empty when the option holds a character
    outside U+0020 .. U+007E, and the option in lower case otherwise. *)
Definition printable (c : ascii) : bool :=
  (32 <=? nat_of_ascii c)%nat && (nat_of_ascii c <=? 126)%nat.

Fixpoint allPrintable (s : string) : bool :=
  match s with
  | EmptyString => true
  | String c rest => printable c && allPrintable rest
  end.

Definition blobType (type : string) : string :=
  if allPrintable type then JsString.toLowerCase type else "".

(* ================================================================== *)
(** ** class DiscordBotService *)

Module DiscordBotService.

Definition nl : string := String (ascii_of_nat 10) EmptyString.

(** *** Reply texts *)

Definition REGISTER_FIRST : string :=
  "❌ **You need to register first!**" ++ nl ++ nl ++
  "To link your Discord account with your email, use:" ++ nl ++
  "`!register your.email@example.com`" ++ nl ++ nl ++
  "After registration, you can upload images and they will be saved to your calendar account.".

Definition GOT_IT : string :=
  "Got it! I received your image and started processing.".

Definition SORRY : string :=
  "Sorry, I could not process that image. Please try again.".

Definition INVALID_FORMAT : string :=
  "❌ Invalid format. Use: `!register` (no email needed - you'll authenticate with Google)".

Definition TECHNICAL_ERROR : string :=
  "❌ Authentication setup failed due to a technical error. Please try again later.".

Definition NOT_REGISTERED : string :=
  "❌ **Registration Status: NOT REGISTERED**" ++ nl ++ nl ++
  "To register your Discord account with your email, use:" ++ nl ++
  "`!register your.email@example.com`".

Definition STATUS_UNAVAILABLE : string :=
  "❌ Unable to check registration status. Please try again later.".

(** *** Lifecycle *)

Definition missing (o : option string) : bool :=
  match o with
  | None => true
  | Some s => String.eqb s ""
  end.

Definition validateConfig (cfg : Config) : M unit :=
  if missing (BOT_TOKEN cfg) then
    throw (Error "Missing DISCORD_BOT_TOKEN in environment variables")
  else if String.eqb (RECEIVER_TOKEN cfg) "" then
    throw (Error "Missing IMAGE_RECEIVER_TOKEN in environment variables")
  else if String.eqb (RECEIVER_URL cfg) "" then
    throw (Error "Missing RECEIVER_URL in environment variables")
  else ret tt.

(** [new Client({ intents: [...], partials: [...] })] *)
Definition newClient : Client :=
  {| intents := [Guilds; GuildMessages; DirectMessages; MessageContent];
     partials := [PartialChannel; PartialMessage];
     onceClientReady := 0;
     onMessageCreate := 0 |}.

Definition setupEventHandlers : M unit :=
  c <- getClient ;;
  match c with
  | None => ret tt
  | Some cl =>
      setClient (Some {| intents := intents cl; partials := partials cl;
                         onceClientReady := S (onceClientReady cl);
                         onMessageCreate := S (onMessageCreate cl) |})
  end.

Definition start (cfg : Config) : M unit :=
  running <- getRunning ;;
  if running then
    console_log [LStr "Discord bot is already running"]
  else
    tryCatch
      (validateConfig cfg ;;
       setClient (Some newClient) ;;
       setupEventHandlers ;;
       login (BOT_TOKEN cfg) ;;
       setRunning true ;;
       console_log [LStr "🤖 Discord bot service started successfully"])
      (fun error =>
         console_error [LStr "Failed to start Discord bot:"; LErr error] ;;
         throw error).

(** [!this.client] *)
Definition absent (c : option Client) : bool :=
  match c with
  | None => true
  | Some _ => false
  end.

Definition stop : M unit :=
  running <- getRunning ;;
  c <- getClient ;;
  if negb running || absent c then ret tt
  else
    tryCatch
      (destroy ;;
       setClient None ;;
       setRunning false ;;
       console_log [LStr "🤖 Discord bot service stopped"])
      (fun error =>
         console_error [LStr "Error stopping Discord bot:"; LErr error]).

(** *** Account lookup *)

Definition statusUrl (cfg : Config) (discordId : string) : string :=
  JsString.replace (RECEIVER_URL cfg) "/api/receiver/image" "/api/discord/register"
  ++ "?discordId=" ++ discordId.

Definition get (url : string) : request :=
  {| req_method := GET; req_url := url; req_headers := []; req_body := NoBody |}.

Definition getUserEmail (cfg : Config) (discordId : string) : M value :=
  tryCatch
    (response <- fetch (get (statusUrl cfg discordId)) ;;
     result <- json response ;;
     if ok response then
       success <- getProp result "success" ;;
       if truthy success then
         registered <- getProp result "registered" ;;
         if truthy registered then
           user <- getProp result "user" ;;
           if truthy (optChain user "email") then
             user' <- getProp result "user" ;;
             getProp user' "email"
           else ret VNull
         else ret VNull
       else ret VNull
     else ret VNull)
    (fun error =>
       console_error [LStr "❌ [DISCORD] Error getting user email:"; LErr error] ;;
       ret VNull).

(** *** Forwarders *)

Definition orDefault (o : option string) (d : string) : string :=
  match o with
  | Some s => if String.eqb s "" then d else s
  | None => d
  end.

Definition provenance (message : Message) : list form_part :=
  [ FormField "source" (VStr "discord");
    FormField "discordMessageId" (VStr (id message));
    FormField "discordChannelId" (VStr (channelId message));
    FormField "discordAuthorId" (VStr (user_id (author message))) ].

Definition receiverPost (cfg : Config) (parts : list form_part) : request :=
  {| req_method := POST;
     req_url := RECEIVER_URL cfg;
     req_headers := [("x-receiver-token", RECEIVER_TOKEN cfg)];
     req_body := FormData parts |}.

Definition forwardAttachment (cfg : Config) (message : Message)
    (attachmentUrl : string) (originalName : option string) : M bool :=
  tryCatch
    (console_log [LStr "🔄 [DISCORD] Starting attachment forward process"] ;;
     console_log [LStr "🔄 [DISCORD] Attachment URL:"; LStr attachmentUrl] ;;
     console_log [LStr "🔄 [DISCORD] Original name:"; LOpt originalName] ;;
     console_log [LStr "🔄 [DISCORD] Receiver URL:"; LStr (RECEIVER_URL cfg)] ;;
     console_log [LStr "🔄 [DISCORD] Token length:"; LLength (RECEIVER_TOKEN cfg)] ;;
     userEmail <- getUserEmail cfg (user_id (author message)) ;;
     if negb (truthy userEmail) then
       console_log [LStr "❌ [DISCORD] User not registered, sending registration prompt"] ;;
       reply message (ReplyText REGISTER_FIRST) ;;
       ret false
     else
       console_log [LStr "✅ [DISCORD] User registered with email:"; LVal userEmail] ;;
       console_log [LStr "📥 [DISCORD] Fetching attachment from Discord..."] ;;
       res <- fetch (get attachmentUrl) ;;
       if negb (ok res) then
         console_error [LStr "❌ [DISCORD] Failed to fetch attachment:";
                        LNum (status res); LStr (statusText res)] ;;
         throw (FetchStatusError (status res) (statusText res))
       else
         let contentType := orDefault (contentTypeHeader res) "application/octet-stream" in
         buffer <- arrayBuffer res ;;
         console_log [LStr "📥 [DISCORD] Attachment fetched successfully, size:";
                      LNum (Z.of_nat (length buffer)); LStr "bytes, type:"; LStr contentType] ;;
         console_log [LStr "📦 [DISCORD] Building FormData..."] ;;
         let formData :=
           FormFile "file" buffer (blobType contentType) (orDefault originalName "image")
           :: provenance message ++ [FormField "userEmail" userEmail] in
         console_log [LStr "📦 [DISCORD] FormData built with keys:";
                      LKeys ["file"; "source"; "discordMessageId"; "discordChannelId";
                             "discordAuthorId"; "userEmail"]] ;;
         console_log [LStr "📦 [DISCORD] User email included:"; LVal userEmail] ;;
         console_log [LStr "🚀 [DISCORD] Sending POST request to receiver..."] ;;
         upload <- fetch (receiverPost cfg formData) ;;
         console_log [LStr "📡 [DISCORD] Received response, status:";
                      LNum (status upload); LStr (statusText upload)] ;;
         console_log [LStr "📡 [DISCORD] Response headers:"; LHeaders upload] ;;
         json <- json upload ;;
         console_log [LStr "📡 [DISCORD] Response body:"; LJson json] ;;
         if negb (ok upload) || negb (truthy json) then
           console_error [LStr "❌ [DISCORD] Receiver responded with error";
                          LNum (status upload); LVal json] ;;
           ret false
         else
           console_log [LStr "✅ [DISCORD] Successfully forwarded image:";
                        LStr (if truthy json then "SUCCESS" else "FAILED")] ;;
           ret true)
    (fun err =>
       console_error [LStr "❌ [DISCORD] Error forwarding attachment:"; LErr err] ;;
       console_error [LStr "❌ [DISCORD] Error stack:"; LStack err] ;;
       ret false).

Definition forwardText (cfg : Config) (message : Message) : M bool :=
  tryCatch
    (let content := JsString.trim (content message) in
     if String.eqb content "" then
       console_log [LStr "⚠️ [DISCORD] No text content to forward"] ;;
       ret false
     else
       console_log [LStr "📝 [DISCORD] Forwarding text message, length:"; LLength content] ;;
       console_log [LStr "📝 [DISCORD] Text preview:"; LPreview content] ;;
       let formData := FormField "text" (VStr content) :: provenance message in
       console_log [LStr "🚀 [DISCORD] Sending text POST request to receiver..."] ;;
       res <- fetch (receiverPost cfg formData) ;;
       console_log [LStr "📡 [DISCORD] Text response status:";
                    LNum (status res); LStr (statusText res)] ;;
       json <- json res ;;
       console_log [LStr "📡 [DISCORD] Text response body:"; LJson json] ;;
       if negb (ok res) || negb (truthy json) then
         console_error [LStr "❌ [DISCORD] Receiver responded with error for text";
                        LNum (status res); LVal json] ;;
         ret false
       else
         console_log [LStr "✅ [DISCORD] Successfully forwarded text:";
                      LStr (if truthy json then "SUCCESS" else "FAILED")] ;;
         ret true)
    (fun err =>
       console_error [LStr "❌ [DISCORD] Error forwarding text:"; LErr err] ;;
       console_error [LStr "❌ [DISCORD] Text error stack:"; LStack err] ;;
       ret false).

(** *** Command handlers *)

Definition oauthInitUrl (cfg : Config) : string :=
  JsString.replace (RECEIVER_URL cfg) "/api/receiver/image" "/api/auth/oauth/initiate".

Definition oauthInitRequest (cfg : Config) (discordId username : string) : request :=
  {| req_method := POST;
     req_url := oauthInitUrl cfg;
     req_headers := [("Content-Type", "application/json")];
     req_body := JsonText (VObj [("discordId", VStr discordId);
                                 ("discordUsername", VStr username)]) |}.

Definition handleRegistrationCommand (cfg : Config) (message : Message) : M unit :=
  tryCatch
    (let content := JsString.trim (content message) in
     if negb (String.eqb content "!register") then
       reply message (ReplyText INVALID_FORMAT)
     else
       let discordId := user_id (author message) in
       let username := username (author message) in
       console_log [LStr ("🔐 [DISCORD-OAUTH] Starting OAuth registration for " ++ discordId)] ;;
       response <- fetch (oauthInitRequest cfg discordId username) ;;
       result <- json response ;;
       let failed : M unit :=
         reason <- getProp result "error" ;;
         console_error [LStr "❌ [DISCORD-OAUTH] OAuth initiation failed:"; LVal reason] ;;
         reason' <- getProp result "error" ;;
         reply message (ReplyAuthFailed (orElse reason' (VStr "Unknown error"))) in
       if ok response then
         success <- getProp result "success" ;;
         if truthy success then
           authUrl <- getProp result "authUrl" ;;
           if truthy authUrl then
             console_log [LStr ("✅ [DISCORD-OAUTH] OAuth URL generated for " ++ discordId)] ;;
             authUrl' <- getProp result "authUrl" ;;
             reply message (ReplyAuthLink authUrl')
           else failed
         else failed
       else failed)
    (fun error =>
       console_error [LStr "❌ [DISCORD-OAUTH] Registration command error:"; LErr error] ;;
       reply message (ReplyText TECHNICAL_ERROR)).

Definition handleStatusCommand (cfg : Config) (message : Message) : M unit :=
  tryCatch
    (let discordId := user_id (author message) in
     console_log [LStr ("🔍 [DISCORD-STATUS] Status check for " ++ discordId)] ;;
     response <- fetch (get (statusUrl cfg discordId)) ;;
     result <- json response ;;
     let unregistered : M unit := reply message (ReplyText NOT_REGISTERED) in
     if ok response then
       success <- getProp result "success" ;;
       if truthy success then
         registered <- getProp result "registered" ;;
         if truthy registered then
           user <- getProp result "user" ;;
           reply message (ReplyStatusActive user)
         else unregistered
       else unregistered
     else unregistered)
    (fun error =>
       console_error [LStr "❌ [DISCORD-STATUS] Status command error:"; LErr error] ;;
       reply message (ReplyText STATUS_UNAVAILABLE)).

(** *** Router *)

(** [message.guildId] used as a condition *)
Definition inGuild (message : Message) : bool :=
  match guildId message with
  | Some g => negb (String.eqb g "")
  | None => false
  end.

(** The test on one attachment's declared content type. *)
Definition isImage (att : Attachment) : bool :=
  let lower := JsString.toLowerCase (orDefault (att_contentType att) "") in
  JsString.includes lower "image/jpeg" || JsString.includes lower "image/png" ||
  JsString.includes lower "image/webp" || JsString.includes lower "image/gif".

(** [att.name || undefined] *)
Definition nameArg (att : Attachment) : option string :=
  if String.eqb (att_name att) "" then None else Some (att_name att).

(** Body of the loop over the attachments. *)
Definition handleAttachment (cfg : Config) (message : Message) (att : Attachment) : M unit :=
  console_log [LStr "📎 [DISCORD] Processing attachment:"; LStr (att_name att);
               LStr "type:"; LOpt (att_contentType att); LStr "size:"; LNum (att_size att)] ;;
  if isImage att then
    console_log [LStr "🖼️ [DISCORD] Found image attachment, forwarding..."] ;;
    ok <- forwardAttachment cfg message (att_url att) (nameArg att) ;;
    if negb (inGuild message) then
      if ok then
        console_log [LStr "✅ [DISCORD] Sending success reply to DM"] ;;
        reply message (ReplyText GOT_IT)
      else
        console_log [LStr "❌ [DISCORD] Sending error reply to DM"] ;;
        reply message (ReplyText SORRY)
    else ret tt
  else
    console_log [LStr "⚠️ [DISCORD] Attachment is not a supported image type"].

(** What [handleMessage] does with a message that is no command and passed
    the channel filter: the attachments, or else the text. *)
Definition relay (cfg : Config) (message : Message) : M unit :=
  let attachments := attachments message in
  console_log [LStr "📎 [DISCORD] Message has"; LNum (Z.of_nat (length attachments));
               LStr "attachments"] ;;
  if (0 <? length attachments)%nat then
    forEach attachments (handleAttachment cfg message)
  else if negb (String.eqb (content message) "")
          && (0 <? String.length (JsString.trim (content message)))%nat then
    if JsString.startsWith (content message) "!" then
      console_log [LStr "⚠️ [DISCORD] Unrecognized command, ignoring:"; LStr (content message)]
    else
      console_log [LStr "📝 [DISCORD] Message has text content, forwarding..."] ;;
      _ <- forwardText cfg message ;;
      ret tt
  else
    console_log [LStr "⚠️ [DISCORD] Message has no processable content"].

(** The channel filter: a guild message outside a non-empty allow-list. *)
Definition filtered (cfg : Config) (message : Message) : bool :=
  inGuild message && (0 <? length (ALLOWED_CHANNELS cfg))%nat
  && negb (JsString.arrayIncludes (ALLOWED_CHANNELS cfg) (channelId message)).

(** The statements inside [handleMessage]'s [try]. *)
Definition route (cfg : Config) (message : Message) : M unit :=
  console_log [LStr "💬 [DISCORD] Received message from:"; LStr (tag (author message));
               LStr "in channel:"; LStr (channelId message)] ;;
  console_log [LStr "💬 [DISCORD] Message ID:"; LStr (id message);
               LStr "Guild ID:"; LStr (orDefault (guildId message) "DM")] ;;
  if bot (author message) then
    console_log [LStr "🤖 [DISCORD] Ignoring bot message"]
  else if JsString.startsWith (content message) "!register" then
    handleRegistrationCommand cfg message
  else if String.eqb (content message) "!status" || String.eqb (content message) "!whoami" then
    handleStatusCommand cfg message
  else if filtered cfg message then
    console_log [LStr "🚫 [DISCORD] Channel not in whitelist, ignoring message"]
  else
    relay cfg message.

(** [handleMessage]'s [catch] block. *)
Definition logHandlerError (err : error) : M unit :=
  console_error [LStr "❌ [DISCORD] Message handler error:"; LErr err] ;;
  console_error [LStr "❌ [DISCORD] Handler error stack:"; LStack err].

Definition handleMessage (cfg : Config) (message : Message) : M unit :=
  tryCatch (route cfg message) logHandlerError.

End DiscordBotService.

Import DiscordBotService.

(* ================================================================== *)
(** ** Observations on a trace *)

(** The world after the events [new] were appended to [w]'s trace, the
    service fields untouched. *)
Definition grow (w : world) (new : list event) : world :=
  {| trace := trace w ++ new; client := client w; isRunning := isRunning w |}.

Definition pick {A} (f : event -> option A) (t : list event) : list A :=
  flat_map (fun ev => match f ev with Some a => [a] | None => [] end) t.

(** The replies attempted, delivered or not. *)
Definition replies : list event -> list reply_payload :=
  pick (fun ev => match ev with EvReply _ p _ => Some p | _ => None end).

(** The HTTP requests made, with what came back. *)
Definition fetches : list event -> list (request * fetch_outcome) :=
  pick (fun ev => match ev with EvFetch req out => Some (req, out) | _ => None end).

(** The POST requests among them. *)
Definition posts : list event -> list (request * fetch_outcome) :=
  pick (fun ev => match ev with
                  | EvFetch req out =>
                      match req_method req with POST => Some (req, out) | GET => None end
                  | _ => None
                  end).

(** Entries of [forwardAttachment]: its second and third console lines carry
    the two arguments it was called with. *)
Definition forwardedUrls : list event -> list string :=
  pick (fun ev => match ev with
                  | EvLog Info [LStr label; LStr url] =>
                      if String.eqb label "🔄 [DISCORD] Attachment URL:" then Some url else None
                  | _ => None
                  end).

Definition forwardedNames : list event -> list (option string) :=
  pick (fun ev => match ev with
                  | EvLog Info [LStr label; LOpt name] =>
                      if String.eqb label "🔄 [DISCORD] Original name:" then Some name else None
                  | _ => None
                  end).

(** The errors that reached [handleMessage]'s [catch]. *)
Definition handlerErrors : list event -> list error :=
  pick (fun ev => match ev with
                  | EvLog Err [LStr label; LErr e] =>
                      if String.eqb label "❌ [DISCORD] Message handler error:" then Some e else None
                  | _ => None
                  end).

(** The receiver's answer as the specification reads it: success is a 2xx
    status together with a body that parses to a truthy value. *)
Definition accepted (out : fetch_outcome) : bool :=
  match out with
  | Responded r =>
      match bodyJson r with
      | Some body => (200 <=? status r)%Z && (status r <=? 299)%Z && truthy body
      | None => false
      end
  | Rejected _ => false
  end.

(** The verdict on a forward, from the uploads it made. *)
Definition verdict (uploads : list (request * fetch_outcome)) : bool :=
  match uploads with
  | [(_, out)] => accepted out
  | _ => false
  end.

(** The account the specification's lookup finds in a status answer. *)
Definition registeredEmail (out : fetch_outcome) : value :=
  match out with
  | Responded r =>
      match bodyJson r with
      | Some (VObj props) =>
          if ok r && truthy (lookup "success" props) && truthy (lookup "registered" props)
             && truthy (optChain (lookup "user" props) "email")
          then optChain (lookup "user" props) "email"
          else VNull
      | _ => VNull
      end
  | Rejected _ => VNull
  end.

(** A message reaches the relay step: its author is no bot, its text is no
    command and its channel passes the filter. *)
Definition isCommand (message : Message) : bool :=
  JsString.startsWith (content message) "!register"
  || String.eqb (content message) "!status" || String.eqb (content message) "!whoami".

Definition relayed (cfg : Config) (message : Message) : bool :=
  negb (bot (author message)) && negb (isCommand message) && negb (filtered cfg message).

(** The text request [forwardText] builds. *)
Definition textRequest (cfg : Config) (message : Message) : request :=
  receiverPost cfg (FormField "text" (VStr (JsString.trim (content message)))
                    :: provenance message).

(** The status request of the account lookup for a message's author. *)
Definition lookupRequest (cfg : Config) (message : Message) : request :=
  get (statusUrl cfg (user_id (author message))).

(** The prompt [forwardAttachment] replies with when the lookup found no
    account. *)
Definition promptFor (lookup : fetch_outcome) : list reply_payload :=
  if truthy (registeredEmail lookup) then [] else [ReplyText REGISTER_FIRST].

(** The acknowledgment [handleMessage] sends after a forward: only outside a
    guild, the affirmative text on success and the apologetic one on failure. *)
Definition acknowledgment (message : Message) (forwarded : bool) : list reply_payload :=
  if inGuild message then []
  else [ReplyText (if forwarded then GOT_IT else SORRY)].

(** Every reply the environment is asked for is delivered. *)
Definition delivers (env : environment) : Prop :=
  forall t message payload, channel_reply env t message payload = None.

(** Every acknowledgment of a message is delivered, whatever becomes of the
    other replies to it. *)
Definition acknowledged (env : environment) (message : Message) : Prop :=
  forall t,
    channel_reply env t message (ReplyText GOT_IT) = None
    /\ channel_reply env t message (ReplyText SORRY) = None.

(** What a status answer must look like for the lookup to find an account:
    a success status, a body that is an object with truthy [success] and
    [registered], and a truthy [user.email]. *)
Definition reportsAccount (out : fetch_outcome) (email : value) : Prop :=
  exists r props,
    out = Responded r /\ ok r = true /\ bodyJson r = Some (VObj props)
    /\ truthy (lookup "success" props) = true
    /\ truthy (lookup "registered" props) = true
    /\ optChain (lookup "user" props) "email" = email /\ truthy email = true.

(** The two console lines at the head of [handleMessage]. *)
Definition received (message : Message) : list event :=
  [ EvLog Info [LStr "💬 [DISCORD] Received message from:"; LStr (tag (author message));
                LStr "in channel:"; LStr (channelId message)];
    EvLog Info [LStr "💬 [DISCORD] Message ID:"; LStr (id message);
                LStr "Guild ID:"; LStr (orDefault (guildId message) "DM")] ].

(** The two console lines of [handleMessage]'s [catch]. *)
Definition caught (e : error) : list event :=
  [ EvLog Err [LStr "❌ [DISCORD] Message handler error:"; LErr e];
    EvLog Err [LStr "❌ [DISCORD] Handler error stack:"; LStack e] ].

Definition withChannels (cfg : Config) (channels : list string) : Config :=
  {| BOT_TOKEN := BOT_TOKEN cfg; RECEIVER_URL := RECEIVER_URL cfg;
     RECEIVER_TOKEN := RECEIVER_TOKEN cfg; ALLOWED_CHANNELS := channels |}.

(** The service object as it is constructed. *)
Definition fresh : world := {| trace := []; client := None; isRunning := false |}.

(** A caller's use of the service: a sequence of calls, each made whether or
    not the one before it threw. *)
Inductive call : Type :=
| Start (cfg : Config)
| Stop.

Definition perform (env : environment) (w : world) (c : call) : world :=
  match c with
  | Start cfg => snd (start cfg env w)
  | Stop => snd (stop env w)
  end.

Definition after (calls : list call) (env : environment) : world :=
  fold_left (perform env) calls fresh.

(* ================================================================== *)
(** ** Sample data *)

Module Sample.

Definition cfg : Config :=
  {| BOT_TOKEN := Some "bot-token";
     RECEIVER_URL := "http://localhost:3000/api/receiver/image";
     RECEIVER_TOKEN := "secret";
     ALLOWED_CHANNELS := [] |}.

Definition restricted : Config :=
  {| BOT_TOKEN := Some "bot-token";
     RECEIVER_URL := "http://localhost:3000/api/receiver/image";
     RECEIVER_TOKEN := "secret";
     ALLOWED_CHANNELS := ["100"; "200"] |}.

Definition alice : User :=
  {| user_id := "42"; username := "alice"; discriminator := "0"; tag := "alice#0";
     bot := false |}.

Definition png : Attachment :=
  {| att_name := "cat.png"; att_url := "https://cdn.example/cat.png";
     att_contentType := Some "image/png"; att_size := 3 |}.

Definition pdf : Attachment :=
  {| att_name := "doc.pdf"; att_url := "https://cdn.example/doc.pdf";
     att_contentType := Some "application/pdf"; att_size := 3 |}.

Definition message (guild : option string) (text : string) (atts : list Attachment)
  : Message :=
  {| id := "m1"; channelId := "300"; guildId := guild; author := alice;
     content := text; attachments := atts |}.

Definition answer (code : Z) (body : option value) : response :=
  {| status := code; statusText := ""; contentTypeHeader := Some "image/png";
     bodyJson := body; bodyBytes := Some [x01; x02; x03] |}.

Definition one : spec_float := S754_finite false 1 0.

(** The receiver knows the user and accepts every upload. *)
Definition registeredBody : value :=
  VObj [("success", VBool true); ("registered", VBool true);
        ("user", VObj [("discordId", VStr "42"); ("email", VStr "alice@example.org")])].

(** The receiver does not know the user. *)
Definition unregisteredBody : value :=
  VObj [("success", VBool true); ("registered", VBool false)].

(** The receiver reports the account but flags the call as unsuccessful. *)
Definition flaggedBody : value :=
  VObj [("success", VBool false); ("registered", VBool true);
        ("user", VObj [("discordId", VStr "42"); ("email", VStr "alice@example.org")])].

Definition serving (statusBody : value) (replyFails : bool) : environment :=
  {| net_fetch := fun _ req =>
       match req_method req with
       | GET =>
           if JsString.includes (req_url req) "/api/discord/register"
           then Responded (answer 200 (Some statusBody))
           else Responded (answer 200 None)
       | POST => Responded (answer 200 (Some (VObj [("success", VBool true);
                                                     ("authUrl", VStr "https://auth.example/x")])))
       end;
     channel_reply := fun _ _ _ => if replyFails then Some (Error "Cannot send messages to this user") else None;
     gateway_login := fun _ _ => None;
     gateway_destroy := fun _ => None |}.

(** The receiver does not know the user, and Discord refuses the registration
    prompt but no other reply. *)
Definition promptRefused : environment :=
  {| net_fetch := net_fetch (serving unregisteredBody false);
     channel_reply := fun _ _ payload =>
       match payload with
       | ReplyText text =>
           if String.eqb text REGISTER_FIRST
           then Some (Error "Cannot send messages to this user")
           else None
       | _ => None
       end;
     gateway_login := fun _ _ => None;
     gateway_destroy := fun _ => None |}.

(** Nothing answers. *)
Definition offline : environment :=
  {| net_fetch := fun _ _ => Rejected (Error "ECONNREFUSED");
     channel_reply := fun _ _ _ => Some (Error "ECONNREFUSED");
     gateway_login := fun _ _ => Some (Error "ECONNREFUSED");
     gateway_destroy := fun _ => Some (Error "ECONNREFUSED") |}.

Definition stopped : world := {| trace := []; client := None; isRunning := false |}.

Definition running : world :=
  {| trace := [];
     client := Some {| intents := intents newClient; partials := partials newClient;
                       onceClientReady := 1; onMessageCreate := 1 |};
     isRunning := true |}.

End Sample.

(* ================================================================== *)
(** ** The configuration getter *)

Module ProcessEnv.

(** [process.env]: a variable is a string or is not set. *)
Definition process_env : Type := string -> option string.

(** [s.split(sep)] for a separator of one character; the result is never
    empty, the empty string gives one empty piece. *)
Fixpoint split (s : string) (sep : ascii) : list string :=
  match s with
  | EmptyString => [EmptyString]
  | String c rest =>
      if Ascii.eqb c sep then EmptyString :: split rest sep
      else match split rest sep with
           | piece :: pieces => String c piece :: pieces
           | [] => [String c EmptyString]
           end
  end.

(** [.filter(Boolean)] on strings *)
Definition nonEmpty (s : string) : bool := negb (String.eqb s "").

(** [get config()] *)
Definition config (penv : process_env) : Config :=
  {| BOT_TOKEN := penv "DISCORD_BOT_TOKEN";
     RECEIVER_URL :=
       orDefault (penv "RECEIVER_URL") "http://localhost:3000/api/receiver/image";
     RECEIVER_TOKEN := orDefault (penv "IMAGE_RECEIVER_TOKEN") "";
     ALLOWED_CHANNELS :=
       filter nonEmpty
         (map JsString.trim (split (orDefault (penv "ALLOWED_CHANNELS") "") ",")) |}.

End ProcessEnv.

(* ================================================================== *)
(** ** The basic forwarder

    The file holds a second, earlier [DiscordBotService] without the
    registration flow: its forwarders do not look the author up and its
    router knows no commands. *)

Module BasicBot.

Definition forwardAttachment (cfg : Config) (message : Message)
    (attachmentUrl : string) (originalName : option string) : M bool :=
  tryCatch
    (res <- fetch (get attachmentUrl) ;;
     if negb (ok res) then
       throw (FetchStatusError (status res) (statusText res))
     else
       let contentType := orDefault (contentTypeHeader res) "application/octet-stream" in
       buffer <- arrayBuffer res ;;
       let formData :=
         FormFile "file" buffer (blobType contentType) (orDefault originalName "image")
         :: provenance message in
       upload <- fetch (receiverPost cfg formData) ;;
       json <- json upload ;;
       if negb (ok upload) || negb (truthy json) then
         console_error [LStr "Receiver responded with error"; LNum (status upload); LVal json] ;;
         ret false
       else
         console_log [LStr "✅ Forwarded image:"; LVal json] ;;
         ret true)
    (fun err =>
       console_error [LStr "Error forwarding attachment:"; LErr err] ;;
       ret false).

Definition forwardText (cfg : Config) (message : Message) : M bool :=
  tryCatch
    (let content := JsString.trim (content message) in
     if String.eqb content "" then ret false
     else
       let formData := FormField "text" (VStr content) :: provenance message in
       res <- fetch (receiverPost cfg formData) ;;
       json <- json res ;;
       if negb (ok res) || negb (truthy json) then
         console_error [LStr "Receiver responded with error for text";
                        LNum (status res); LVal json] ;;
         ret false
       else
         console_log [LStr "✅ Forwarded text:"; LVal json] ;;
         ret true)
    (fun err =>
       console_error [LStr "Error forwarding text:"; LErr err] ;;
       ret false).

(** Body of the loop over the attachments. *)
Definition handleAttachment (cfg : Config) (message : Message) (att : Attachment) : M unit :=
  if isImage att then
    ok <- forwardAttachment cfg message (att_url att) (nameArg att) ;;
    if negb (inGuild message) then
      if ok then reply message (ReplyText GOT_IT)
      else reply message (ReplyText SORRY)
    else ret tt
  else ret tt.

(** The statements inside [handleMessage]'s [try]. *)
Definition route (cfg : Config) (message : Message) : M unit :=
  if bot (author message) then ret tt
  else if filtered cfg message then ret tt
  else
    let attachments := attachments message in
    if (0 <? length attachments)%nat then
      forEach attachments (handleAttachment cfg message)
    else if negb (String.eqb (content message) "")
            && (0 <? String.length (JsString.trim (content message)))%nat then
      _ <- forwardText cfg message ;;
      ret tt
    else ret tt.

Definition handleMessage (cfg : Config) (message : Message) : M unit :=
  tryCatch (route cfg message)
    (fun err => console_error [LStr "Message handler error:"; LErr err]).

End BasicBot.

(* ================================================================== *)
(** ** What the command replies depend on *)



(** The client [start] leaves in [this.client]: the new client with the two
    listeners of [setupEventHandlers]. *)
Definition listening : Client :=
  {| intents := [Guilds; GuildMessages; DirectMessages; MessageContent];
     partials := [PartialChannel; PartialMessage];
     onceClientReady := 1;
     onMessageCreate := 1 |}.

(** The configuration passes [validateConfig]. *)
Definition configured (cfg : Config) : bool :=
  negb (missing (BOT_TOKEN cfg)) && negb (String.eqb (RECEIVER_TOKEN cfg) "")
  && negb (String.eqb (RECEIVER_URL cfg) "").


(** The upload of the basic forwarder. *)
Definition basicImageRequest (cfg : Config) (message : Message)
    (originalName : option string) (res : response) (buffer : list byte) : request :=
  receiverPost cfg
    (FormFile "file" buffer
       (blobType (orDefault (contentTypeHeader res) "application/octet-stream"))
       (orDefault originalName "image")
     :: provenance message).



(* ================================================================== *)
(** ** Reasoning about traces *)

Open Scope list_scope.

Section Traces.

Lemma pick_app {A} (f : event -> option A) (a b : list event) :
  pick f (a ++ b) = pick f a ++ pick f b.
Proof. unfold pick. apply flat_map_app. Qed.

Lemma replies_app a b : replies (a ++ b) = replies a ++ replies b.
Proof. apply pick_app. Qed.

Lemma fetches_app a b : fetches (a ++ b) = fetches a ++ fetches b.
Proof. apply pick_app. Qed.

Lemma posts_app a b : posts (a ++ b) = posts a ++ posts b.
Proof. apply pick_app. Qed.

Lemma forwardedUrls_app a b : forwardedUrls (a ++ b) = forwardedUrls a ++ forwardedUrls b.
Proof. apply pick_app. Qed.

Lemma forwardedNames_app a b :
  forwardedNames (a ++ b) = forwardedNames a ++ forwardedNames b.
Proof. apply pick_app. Qed.

Lemma handlerErrors_app a b :
  handlerErrors (a ++ b) = handlerErrors a ++ handlerErrors b.
Proof. apply pick_app. Qed.

Lemma world_eq w1 w2 :
  trace w1 = trace w2 -> client w1 = client w2 -> isRunning w1 = isRunning w2 ->
  w1 = w2.
Proof. destruct w1, w2; simpl; congruence. Qed.

Lemma grow_nil w : w = grow w [].
Proof. apply world_eq; simpl; auto using app_nil_r. Qed.

Lemma grow_emit w' w new ev :
  w' = grow w new -> emit ev w' = grow w (new ++ [ev]).
Proof. intros ->. apply world_eq; simpl; auto using app_assoc. Qed.

Lemma grow_grow w' w a b :
  w' = grow w a -> grow w' b = grow w (a ++ b).
Proof. intros ->. apply world_eq; simpl; auto using app_assoc. Qed.

Lemma run_eq {A} (r r' : outcome A) (w' w : world) (new new' : list event) :
  r = r' -> w' = grow w new' -> new' = new -> (r, w') = (r', grow w new).
Proof. now intros -> -> ->. Qed.

End Traces.

Create Rewrite HintDb trace.


#[local] Hint Rewrite @pick_app replies_app fetches_app posts_app forwardedUrls_app
  forwardedNames_app handlerErrors_app : trace.

(** Shows a world built by [emit]s and [grow]s over [w] to be [grow w _]. *)
Ltac grown :=
  repeat first [ eapply grow_emit | eapply grow_grow | apply grow_nil ].

Ltac ran := eapply run_eq; [ reflexivity | grown | cbn [app]; reflexivity ].

(** The same, the new events kept as the concatenation of their segments. *)
Ltac ran_segments := eapply run_eq; [ reflexivity | grown | reflexivity ].

(** One step of the monad, the service's methods left folded. *)
Ltac step :=
  lazy beta iota zeta delta
    [bind tryCatch ret throw fetch json arrayBuffer reply getProp
     console_log console_error].

(* ================================================================== *)
(** ** The account lookup *)

Section Lookup.

Variable cfg : Config.

(** [getUserEmail] never throws; it makes one GET, perhaps logs the error it
    swallowed, and returns what [registeredEmail] reads off the answer. *)
Lemma getUserEmail_effect discordId env w :
  let req := get (statusUrl cfg discordId) in
  let out := net_fetch env (trace w) req in
  exists logs,
    getUserEmail cfg discordId env w
      = (Returned (registeredEmail out), grow w (EvFetch req out :: logs))
    /\ (logs = [] \/
        exists e, logs = [EvLog Err [LStr "❌ [DISCORD] Error getting user email:"; LErr e]]).
Proof.
  intros req out. unfold getUserEmail. step. fold req. fold out.
  destruct out as [e | r] eqn:Eout; cbn [registeredEmail].
  - eexists. split; [ ran | right; eexists; reflexivity ].
  - unfold json. destruct (bodyJson r) as [body |]; step.
    2: { eexists. split; [ ran | right; eexists; reflexivity ]. }
    destruct (ok r); cbn [andb].
    2: { exists []. split; [ destruct body; ran | now left ]. }
    destruct body; step;
      try (eexists; split; [ ran | first [ now left | right; eexists; reflexivity ] ]).
    destruct (truthy (lookup "success" props)); step; cbn [andb];
      try (eexists; split; [ ran | now left ]).
    destruct (truthy (lookup "registered" props)); step; cbn [andb];
      try (eexists; split; [ ran | now left ]).
    destruct (truthy (optChain (lookup "user" props) "email")) eqn:Eemail; step;
      try (eexists; split; [ ran | now left ]).
    destruct (lookup "user" props); cbn [optChain truthy] in Eemail; try discriminate.
    step. cbn [optChain]. eexists; split; [ ran | now left ].
Qed.

End Lookup.

(* ================================================================== *)
(** ** The forwarders *)

Section Forwarders.

Variable cfg : Config.

Lemma ok_2xx r : ok r = (200 <=? status r)%Z && (status r <=? 299)%Z.
Proof.
  unfold ok. f_equal.
  destruct (Z.ltb_spec (status r) 300), (Z.leb_spec (status r) 299); auto; lia.
Qed.

Lemma accepted_responded r :
  accepted (Responded r) =
  match bodyJson r with
  | Some body => ok r && truthy body
  | None => false
  end.
Proof. unfold accepted. destruct (bodyJson r); [ now rewrite ok_2xx | reflexivity ]. Qed.

(** [forwardText] never throws and never replies; it uploads once unless the
    trimmed text is empty, and its result is the verdict on that upload. *)
Lemma forwardText_effect message env w :
  exists b new,
    forwardText cfg message env w = (Returned b, grow w new)
    /\ b = verdict (posts new)
    /\ replies new = [] /\ forwardedUrls new = [] /\ forwardedNames new = []
    /\ fetches new = posts new
    /\ (if String.eqb (JsString.trim (content message)) "" then posts new = []
        else exists out, posts new = [(textRequest cfg message, out)]).
Proof.
  unfold forwardText. step.
  destruct (String.eqb (JsString.trim (content message)) "").
  { do 2 eexists. split; [ ran | repeat split ]. }
  step. fold (textRequest cfg message).
  destruct (net_fetch env _ (textRequest cfg message)) as [e | r] eqn:Eout.
  { do 2 eexists. split; [ ran | ].
    repeat split; try reflexivity. eexists; reflexivity. }
  step. unfold json.
  assert (Hacc := accepted_responded r).
  destruct (bodyJson r) as [body |]; step.
  2: { do 2 eexists. split; [ ran | ].
       repeat split; try reflexivity.
       - change (false = accepted (Responded r)). now rewrite Hacc.
       - eexists; reflexivity. }
  destruct (ok r); cbn [negb orb andb] in *.
  2: { do 2 eexists. split; [ ran | ].
       repeat split; try reflexivity.
       - change (false = accepted (Responded r)). now rewrite Hacc.
       - eexists; reflexivity. }
  destruct (truthy body); cbn [negb] in *;
    (do 2 eexists; split; [ ran | ];
     repeat split; try reflexivity;
     [ match goal with |- ?b = _ => change (b = accepted (Responded r)) end;
       now rewrite Hacc
     | eexists; reflexivity ]).
Qed.

(** [forwardAttachment] never throws.  It logs its two arguments once, looks
    the author up first, replies with the registration prompt exactly when
    the lookup found no account (and then uploads nothing), and its result is
    the verdict on the upload. *)
Lemma forwardAttachment_effect message url name env w :
  exists b new,
    forwardAttachment cfg message url name env w = (Returned b, grow w new)
    /\ b = verdict (posts new) /\ (length (posts new) <= 1)%nat
    /\ forwardedUrls new = [url] /\ forwardedNames new = [name]
    /\ exists lookup rest,
         fetches new = (lookupRequest cfg message, lookup) :: rest
         /\ replies new = promptFor lookup
         /\ (if truthy (registeredEmail lookup) then True else posts new = []).
Proof.
  unfold forwardAttachment. step.
  match goal with
  | |- context [getUserEmail ?c ?i ?e ?w0] =>
      destruct (getUserEmail_effect c i e w0) as (logs & -> & Hlogs)
  end.
  fold (lookupRequest cfg message).
  set (lookup := net_fetch env _ (lookupRequest cfg message)).
  unfold promptFor.
  destruct (truthy (registeredEmail lookup)) eqn:Hreg; cbn [negb]; step.
  - (* registered: fetch the bytes, then upload *)
    destruct (net_fetch env _ (get url)) as [e | res] eqn:Efetch; step.
    { destruct Hlogs as [-> | [e' ->]];
        (do 2 eexists; split; [ ran | ];
         repeat split; try reflexivity; try (cbn; lia);
         do 2 eexists; repeat split; try reflexivity; try (cbn; lia); now rewrite Hreg). }
    destruct (ok res); cbn [negb]; step.
    2: { destruct Hlogs as [-> | [e' ->]];
           (do 2 eexists; split; [ ran | ];
            repeat split; try reflexivity; try (cbn; lia);
            do 2 eexists; repeat split; try reflexivity; try (cbn; lia); now rewrite Hreg). }
    unfold arrayBuffer. destruct (bodyBytes res) as [buffer |]; step.
    2: { destruct Hlogs as [-> | [e' ->]];
           (do 2 eexists; split; [ ran | ];
            repeat split; try reflexivity; try (cbn; lia);
            do 2 eexists; repeat split; try reflexivity; try (cbn; lia); now rewrite Hreg). }
    match goal with
    | |- context [net_fetch env ?t (receiverPost cfg ?parts)] =>
        destruct (net_fetch env t (receiverPost cfg parts)) as [e | r] eqn:Eup
    end; step.
    { destruct Hlogs as [-> | [e' ->]];
        (do 2 eexists; split; [ ran | ];
         repeat split; try reflexivity; try (cbn; lia);
         do 2 eexists; repeat split; try reflexivity; try (cbn; lia); now rewrite Hreg). }
    unfold json. assert (Hacc := accepted_responded r).
    destruct (bodyJson r) as [body |]; step.
    2: { destruct Hlogs as [-> | [e' ->]];
           (do 2 eexists; split; [ ran | ];
            repeat split; try reflexivity; try (cbn; lia);
            [ change (false = accepted (Responded r)); now rewrite Hacc
            | do 2 eexists; repeat split; try reflexivity; try (cbn; lia); now rewrite Hreg ]). }
    destruct (ok r); cbn [negb orb andb] in *.
    2: { destruct Hlogs as [-> | [e' ->]];
           (do 2 eexists; split; [ ran | ];
            repeat split; try reflexivity; try (cbn; lia);
            [ change (false = accepted (Responded r)); now rewrite Hacc
            | do 2 eexists; repeat split; try reflexivity; try (cbn; lia); now rewrite Hreg ]). }
    destruct (truthy body); cbn [negb] in *;
      (destruct Hlogs as [-> | [e' ->]];
       (do 2 eexists; split; [ ran | ];
        repeat split; try reflexivity; try (cbn; lia);
        [ match goal with |- ?b = _ => change (b = accepted (Responded r)) end;
          now rewrite Hacc
        | do 2 eexists; repeat split; try reflexivity; try (cbn; lia); now rewrite Hreg ])).
  - (* no account: prompt and give up *)
    destruct (channel_reply env _ message (ReplyText REGISTER_FIRST)) as [e |]; step;
      (destruct Hlogs as [-> | [e' ->]];
       (do 2 eexists; split; [ ran | ];
        repeat split; try reflexivity; try (cbn; lia);
        do 2 eexists; repeat split; try reflexivity; try (cbn; lia); now rewrite Hreg)).
Qed.

End Forwarders.

(* ================================================================== *)
(** ** The attachment loop *)

Section Attachments.

Variable cfg : Config.
Variable message : Message.

(** An attachment that is no image costs two console lines. *)
Lemma handleAttachment_skip att env w :
  isImage att = false ->
  exists new,
    handleAttachment cfg message att env w = (Returned tt, grow w new)
    /\ fetches new = [] /\ replies new = []
    /\ forwardedUrls new = [] /\ forwardedNames new = [].
Proof.
  intros Himg. unfold handleAttachment. step. rewrite Himg. step.
  eexists. split; [ ran | repeat split ].
Qed.

(** An image is forwarded once and, outside a guild, acknowledged once; the
    only way out by exception is the acknowledgment failing. *)
Lemma handleAttachment_image att env w :
  isImage att = true ->
  exists r new,
    handleAttachment cfg message att env w = (r, grow w new)
    /\ forwardedUrls new = [att_url att] /\ forwardedNames new = [nameArg att]
    /\ (exists lookup rest,
          fetches new = (lookupRequest cfg message, lookup) :: rest
          /\ replies new = promptFor lookup ++ acknowledgment message (verdict (posts new)))
    /\ (r = Returned tt
        \/ inGuild message = false /\ ~ delivers env /\ exists e, r = Thrown e).
Proof.
  intros Himg. unfold handleAttachment. step. rewrite Himg. step.
  match goal with
  | |- context [forwardAttachment ?c ?m ?u ?n ?e ?w0] =>
      destruct (forwardAttachment_effect c m u n e w0)
        as (b & seg & -> & Hb & _ & Hurl & Hname & lookup & rest & Hfetch & Hreply & _)
  end.
  unfold acknowledgment.
  destruct (inGuild message); cbn [negb]; step.
  { do 2 eexists. split; [ ran_segments | ].
    autorewrite with trace. rewrite Hurl, Hname, Hfetch, Hreply.
    simpl. rewrite ?app_nil_r.
    repeat split; try reflexivity; [ | now left ].
    do 2 eexists; split; [ reflexivity | now rewrite app_nil_r ]. }
  destruct b; step;
    match goal with
    | |- context [channel_reply env ?t message ?p] =>
        destruct (channel_reply env t message p) as [e |] eqn:Hsent
    end;
    (do 2 eexists; split; [ ran_segments | ];
     autorewrite with trace; rewrite Hurl, Hname, Hfetch, Hreply;
     simpl; rewrite ?app_nil_r, <- ?Hb;
     repeat split; try reflexivity;
     [ do 2 eexists; split; reflexivity
     | first [ now left
             | right; repeat split;
               [ intros Hall; now rewrite Hall in Hsent | eexists; reflexivity ] ] ]).
Qed.

End Attachments.

(* ================================================================== *)
(** ** Account lookup: when an email comes back *)

Lemma registeredEmail_reports out email :
  reportsAccount out email <-> registeredEmail out = email /\ email <> VNull.
Proof.
  split.
  - intros (r & props & -> & Hok & Hbody & Hs & Hr & He & Ht).
    unfold registeredEmail. rewrite Hbody, Hok, Hs, Hr, He, Ht. cbn [andb].
    split; [ reflexivity | intros ->; discriminate ].
  - intros [Heq Hnn]. unfold registeredEmail in Heq.
    destruct out as [e | r]; [ congruence | ].
    destruct (bodyJson r) as [body |] eqn:Hbody; [ | congruence ].
    destruct body; try congruence.
    destruct (ok r) eqn:Hok; cbn [andb] in Heq; [ | congruence ].
    destruct (truthy (lookup "success" props)) eqn:Hs; cbn [andb] in Heq; [ | congruence ].
    destruct (truthy (lookup "registered" props)) eqn:Hr; cbn [andb] in Heq; [ | congruence ].
    destruct (truthy (optChain (lookup "user" props) "email")) eqn:Ht; [ | congruence ].
    exists r, props. subst email. repeat split; auto.
Qed.

(** C2 (amended): [getUserEmail] always returns, and it returns a non-null
    email exactly when the status answer has a success status and a body that
    reports success = true, registered = true and a present (truthy) user
    email; on every other outcome, a rejected request, a non-2xx status, a
    body that does not parse or is no such object, an unset flag, it returns
    null. *)
Theorem getUserEmail_email_exactly_when_reported cfg discordId env w :
  exists v new,
    getUserEmail cfg discordId env w = (Returned v, grow w new)
    /\ (forall email,
          reportsAccount (net_fetch env (trace w) (get (statusUrl cfg discordId))) email
          <-> v = email /\ email <> VNull)
    /\ ((forall email,
           ~ reportsAccount (net_fetch env (trace w) (get (statusUrl cfg discordId))) email)
        -> v = VNull).
Proof.
  destruct (getUserEmail_effect cfg discordId env w) as (logs & Hrun & _).
  cbv zeta in Hrun. do 2 eexists. split; [ exact Hrun | ]. split.
  - intros email. apply registeredEmail_reports.
  - intros Hnone.
    set (v := registeredEmail _) in *.
    assert (Hdec : v = VNull \/ v <> VNull) by (destruct v; auto; right; discriminate).
    destruct Hdec as [Hv | Hv]; [ exact Hv | ].
    exfalso. apply (Hnone v). apply registeredEmail_reports. now split.
Qed.

(** C2, as stated, fails: the answer below has a success status, reports
    registered = true and carries an email, yet the lookup returns null,
    because the body's [success] flag is false. *)
Lemma getUserEmail_null_despite_registered_email :
  (exists r props,
      net_fetch (Sample.serving Sample.flaggedBody false) []
                (get (statusUrl Sample.cfg "42")) = Responded r
      /\ ok r = true /\ bodyJson r = Some (VObj props)
      /\ truthy (lookup "registered" props) = true
      /\ optChain (lookup "user" props) "email" = VStr "alice@example.org")
  /\ fst (getUserEmail Sample.cfg "42" (Sample.serving Sample.flaggedBody false)
                       Sample.stopped) = Returned VNull.
Proof.
  split; [ | reflexivity ].
  do 2 eexists. repeat split.
Qed.

(** The three failures the specification names are indeed not told apart. *)
Example getUserEmail_unreachable :
  fst (getUserEmail Sample.cfg "42" Sample.offline Sample.stopped) = Returned VNull.
Proof. reflexivity. Qed.

Example getUserEmail_status_500 :
  fst (getUserEmail Sample.cfg "42"
         {| net_fetch := fun _ _ => Responded (Sample.answer 500 (Some Sample.registeredBody));
            channel_reply := fun _ _ _ => None;
            gateway_login := fun _ _ => None;
            gateway_destroy := fun _ => None |}
         Sample.stopped) = Returned VNull.
Proof. reflexivity. Qed.

Example getUserEmail_unregistered :
  fst (getUserEmail Sample.cfg "42" (Sample.serving Sample.unregisteredBody false)
         Sample.stopped) = Returned VNull.
Proof. reflexivity. Qed.

Example getUserEmail_registered :
  fst (getUserEmail Sample.cfg "42" (Sample.serving Sample.registeredBody false)
         Sample.stopped) = Returned (VStr "alice@example.org").
Proof. reflexivity. Qed.

(* ================================================================== *)
(** ** Forwarders: one success criterion *)

Lemma accepted_iff out :
  accepted out = true <->
  exists r body,
    out = Responded r /\ ok r = true /\ bodyJson r = Some body /\ truthy body = true.
Proof.
  split.
  - destruct out as [e | r]; [ discriminate | ].
    rewrite accepted_responded.
    destruct (bodyJson r) as [body |] eqn:Hbody; [ | discriminate ].
    intros [Hok Ht]%andb_true_iff. now exists r, body.
  - intros (r & body & -> & Hok & Hbody & Ht).
    now rewrite accepted_responded, Hbody, Hok, Ht.
Qed.

(** C7: [forwardAttachment] and [forwardText] both always return a boolean,
    upload at most once, and return the same verdict on that upload: true
    exactly when the receiver answered with a 2xx status and a body that
    parses to a truthy value.  A non-2xx answer with a parseable body, a body
    that does not parse, and no upload at all each give false. *)
Theorem forwarders_share_success_criterion cfg message url name env w :
  (exists b new,
      forwardAttachment cfg message url name env w = (Returned b, grow w new)
      /\ (length (posts new) <= 1)%nat /\ b = verdict (posts new))
  /\ (exists b new,
      forwardText cfg message env w = (Returned b, grow w new)
      /\ (length (posts new) <= 1)%nat /\ b = verdict (posts new))
  /\ (forall upload,
      verdict [upload] = true <->
      exists r body,
        snd upload = Responded r /\ (200 <=? status r)%Z = true /\ (status r <=? 299)%Z = true
        /\ bodyJson r = Some body /\ truthy body = true).
Proof.
  split; [ | split ].
  - destruct (forwardAttachment_effect cfg message url name env w)
      as (b & new & Hrun & Hb & Hone & _).
    now exists b, new.
  - destruct (forwardText_effect cfg message env w)
      as (b & new & Hrun & Hb & _ & _ & _ & _ & Hposts).
    exists b, new. repeat split; auto.
    destruct (String.eqb _ _); [ rewrite Hposts; cbn; lia | ].
    destruct Hposts as [out ->]. cbn; lia.
  - intros [req out]. cbn [verdict snd]. rewrite accepted_iff.
    split; intros (r & body & -> & H); exists r, body; (split; [ reflexivity | ]).
    + destruct H as (Hok & Hbody & Ht). rewrite ok_2xx in Hok.
      apply andb_true_iff in Hok. tauto.
    + destruct H as (Hlo & Hhi & Hbody & Ht). rewrite ok_2xx, Hlo, Hhi. auto.
Qed.

(* ================================================================== *)
(** ** The router *)

Section Router.

Variable cfg : Config.
Variable message : Message.

Lemma route_head (k : M unit) env w :
  (console_log [LStr "💬 [DISCORD] Received message from:"; LStr (tag (author message));
                LStr "in channel:"; LStr (channelId message)] ;;
   console_log [LStr "💬 [DISCORD] Message ID:"; LStr (id message);
                LStr "Guild ID:"; LStr (orDefault (guildId message) "DM")] ;;
   k) env w
  = k env (grow w (received message)).
Proof.
  step. f_equal. apply world_eq; cbn [trace client isRunning emit grow]; auto.
  now rewrite <- app_assoc.
Qed.

Lemma route_bot env w :
  bot (author message) = true ->
  route cfg message env w
  = (Returned tt,
     grow w (received message ++ [EvLog Info [LStr "🤖 [DISCORD] Ignoring bot message"]])).
Proof.
  intros Hbot. unfold route. rewrite route_head, Hbot. step.
  f_equal. now apply grow_emit.
Qed.

Lemma route_register env w :
  bot (author message) = false ->
  JsString.startsWith (content message) "!register" = true ->
  route cfg message env w
  = handleRegistrationCommand cfg message env (grow w (received message)).
Proof. intros Hbot Hreg. unfold route. now rewrite route_head, Hbot, Hreg. Qed.

Lemma route_status env w :
  bot (author message) = false ->
  JsString.startsWith (content message) "!register" = false ->
  String.eqb (content message) "!status" || String.eqb (content message) "!whoami" = true ->
  route cfg message env w
  = handleStatusCommand cfg message env (grow w (received message)).
Proof. intros Hbot Hreg Hst. unfold route. now rewrite route_head, Hbot, Hreg, Hst. Qed.

Lemma not_command :
  isCommand message = false ->
  JsString.startsWith (content message) "!register" = false
  /\ String.eqb (content message) "!status" || String.eqb (content message) "!whoami" = false.
Proof.
  unfold isCommand. rewrite <- orb_assoc. intros H.
  apply orb_false_iff in H. tauto.
Qed.

Lemma route_filtered env w :
  bot (author message) = false -> isCommand message = false ->
  filtered cfg message = true ->
  route cfg message env w
  = (Returned tt,
     grow w (received message
             ++ [EvLog Info [LStr "🚫 [DISCORD] Channel not in whitelist, ignoring message"]])).
Proof.
  intros Hbot [Hreg Hst]%not_command Hf.
  unfold route. rewrite route_head, Hbot, Hreg, Hst, Hf. step.
  f_equal. now apply grow_emit.
Qed.

Lemma route_relay env w :
  bot (author message) = false -> isCommand message = false ->
  filtered cfg message = false ->
  route cfg message env w = relay cfg message env (grow w (received message)).
Proof.
  intros Hbot [Hreg Hst]%not_command Hf.
  unfold route. now rewrite route_head, Hbot, Hreg, Hst, Hf.
Qed.

Lemma relayed_inv :
  relayed cfg message = true ->
  bot (author message) = false /\ isCommand message = false /\ filtered cfg message = false.
Proof.
  unfold relayed. intros [[H1 H2]%andb_true_iff H3]%andb_true_iff.
  now rewrite negb_true_iff in H1, H2, H3.
Qed.

(** [handleMessage] never throws: what escapes [route] is logged. *)
Lemma handleMessage_catches env w :
  handleMessage cfg message env w =
  match route cfg message env w with
  | (Returned _, w') => (Returned tt, w')
  | (Thrown e, w') => (Returned tt, grow w' (caught e))
  end.
Proof.
  unfold handleMessage, tryCatch.
  destruct (route cfg message env w) as [[[] | e] w']; [ reflexivity | ].
  unfold logHandlerError. step. f_equal.
  apply world_eq; cbn [trace client isRunning emit grow caught]; auto.
  now rewrite <- app_assoc.
Qed.

End Router.

(* ================================================================== *)
(** ** Replies to an image *)

Section Acknowledgment.

Variable cfg : Config.
Variable message : Message.

Lemma received_silent :
  fetches (received message) = [] /\ posts (received message) = []
  /\ replies (received message) = [] /\ forwardedUrls (received message) = []
  /\ forwardedNames (received message) = [].
Proof. repeat split. Qed.

Lemma caught_silent e :
  fetches (caught e) = [] /\ posts (caught e) = [] /\ replies (caught e) = []
  /\ forwardedUrls (caught e) = [] /\ forwardedNames (caught e) = [].
Proof. repeat split. Qed.

(** C1 (amended): a message that reaches the relay step with one image
    attachment is always handled to the end, and the replies it gets are, in
    this order: the registration prompt, sent by [forwardAttachment] in a
    guild channel as well as in a direct message, exactly when the account
    lookup (the first request made) found no email; then, in a direct message
    only, exactly one acknowledgment, affirmative when the upload was
    accepted and apologetic otherwise.  A guild message gets no
    acknowledgment, and no reply at all when the lookup found an account. *)
Theorem image_replies_prompt_then_acknowledgment att env w :
  relayed cfg message = true -> attachments message = [att] -> isImage att = true ->
  exists new lookup rest,
    handleMessage cfg message env w = (Returned tt, grow w new)
    /\ fetches new = (lookupRequest cfg message, lookup) :: rest
    /\ replies new
       = promptFor lookup
         ++ (if inGuild message then []
             else [ReplyText (if verdict (posts new) then GOT_IT else SORRY)]).
Proof.
  intros (Hbot & Hcmd & Hflt)%relayed_inv Hatts Himg.
  rewrite handleMessage_catches, route_relay by assumption.
  unfold relay. rewrite Hatts. step. cbn [length Nat.ltb Nat.leb forEach]. step.
  match goal with
  | |- context [handleAttachment cfg message att env ?w0] =>
      destruct (handleAttachment_image cfg message att env w0 Himg)
        as (r & seg & -> & _ & _ & (lookup & rest & Hfetch & Hreply) & _)
  end.
  unfold acknowledgment in Hreply.
  destruct received_silent as (Rf & Rp & Rr & _).
  destruct r as [[] | e].
  - exists (received message
            ++ [EvLog Info [LStr "📎 [DISCORD] Message has"; LNum 1; LStr "attachments"]]
            ++ seg), lookup, rest.
    split; [ eapply run_eq; [ reflexivity | grown | now rewrite !app_assoc ] | ].
    autorewrite with trace. rewrite Rf, Rp, Rr, Hfetch, Hreply. split; reflexivity.
  - destruct (caught_silent e) as (Cf & Cp & Cr & _).
    exists (received message
            ++ [EvLog Info [LStr "📎 [DISCORD] Message has"; LNum 1; LStr "attachments"]]
            ++ seg ++ caught e), lookup, rest.
    split; [ eapply run_eq; [ reflexivity | grown | now rewrite !app_assoc ] | ].
    autorewrite with trace. rewrite Rf, Rp, Rr, Cf, Cp, Cr, Hfetch, Hreply.
    cbn [app]. rewrite !app_nil_r. split; reflexivity.
Qed.

End Acknowledgment.

Lemma image_replies_prompt_then_acknowledgment_witness :
  relayed Sample.cfg (Sample.message None "" [Sample.png]) = true
  /\ exists new lookup rest,
       handleMessage Sample.cfg (Sample.message None "" [Sample.png])
         (Sample.serving Sample.registeredBody false) Sample.stopped
       = (Returned tt, grow Sample.stopped new)
       /\ fetches new
          = (lookupRequest Sample.cfg (Sample.message None "" [Sample.png]), lookup) :: rest
       /\ replies new
          = promptFor lookup
            ++ (if inGuild (Sample.message None "" [Sample.png]) then []
                else [ReplyText (if verdict (posts new) then GOT_IT else SORRY)]).
Proof.
  split; [ reflexivity | ].
  apply (image_replies_prompt_then_acknowledgment Sample.cfg
           (Sample.message None "" [Sample.png]) Sample.png);
    reflexivity.
Defined.

(** C1, as stated, fails in a guild channel: the author below has no account,
    the forward fails, and the message still gets one reply, the
    registration prompt. *)
Lemma guild_image_without_account_gets_a_reply :
  inGuild (Sample.message (Some "900") "" [Sample.png]) = true
  /\ attachments (Sample.message (Some "900") "" [Sample.png]) = [Sample.png]
  /\ isImage Sample.png = true
  /\ replies (trace (snd (handleMessage Sample.cfg
                            (Sample.message (Some "900") "" [Sample.png])
                            (Sample.serving Sample.unregisteredBody false)
                            Sample.stopped)))
     = [ReplyText REGISTER_FIRST].
Proof. repeat split. Qed.

(** In a direct message the same author gets two replies, the prompt and the
    apologetic acknowledgment. *)
Example direct_image_without_account_gets_two_replies :
  replies (trace (snd (handleMessage Sample.cfg
                         (Sample.message None "" [Sample.png])
                         (Sample.serving Sample.unregisteredBody false)
                         Sample.stopped)))
  = [ReplyText REGISTER_FIRST; ReplyText SORRY].
Proof. reflexivity. Qed.

Example direct_image_with_account_gets_one_reply :
  replies (trace (snd (handleMessage Sample.cfg
                         (Sample.message None "" [Sample.png])
                         (Sample.serving Sample.registeredBody false)
                         Sample.stopped)))
  = [ReplyText GOT_IT].
Proof. reflexivity. Qed.

Example guild_image_with_account_gets_no_reply :
  replies (trace (snd (handleMessage Sample.cfg
                         (Sample.message (Some "900") "" [Sample.png])
                         (Sample.serving Sample.registeredBody false)
                         Sample.stopped)))
  = [].
Proof. reflexivity. Qed.

(* ================================================================== *)
(** ** Which attachments are forwarded *)

Section Loop.

Variable cfg : Config.
Variable message : Message.
Variable env : environment.

Lemma sent_at (w' w : world) before payload e :
  w' = grow w before ->
  channel_reply env (trace w') message payload = Some e ->
  channel_reply env (trace w ++ before) message payload = Some e.
Proof. now intros ->. Qed.

(** An image is forwarded once; the loop body ends by an exception only when
    its last step, the acknowledgment in a direct message, is refused. *)
Lemma handleAttachment_image_run att w :
  isImage att = true ->
  exists r new,
    handleAttachment cfg message att env w = (r, grow w new)
    /\ forwardedUrls new = [att_url att] /\ forwardedNames new = [nameArg att]
    /\ (r = Returned tt
        \/ inGuild message = false
           /\ exists before payload e,
                r = Thrown e
                /\ new = before ++ [EvReply (id message) payload (Some e)]
                /\ (payload = ReplyText GOT_IT \/ payload = ReplyText SORRY)
                /\ channel_reply env (trace w ++ before) message payload = Some e).
Proof.
  intros Himg. unfold handleAttachment. step. rewrite Himg. step.
  match goal with
  | |- context [forwardAttachment ?c ?m ?u ?n ?e ?w0] =>
      destruct (forwardAttachment_effect c m u n e w0)
        as (b & seg & -> & _ & _ & Hurl & Hname & _)
  end.
  destruct (inGuild message); cbn [negb]; step.
  { do 2 eexists. split; [ ran_segments | ].
    autorewrite with trace. rewrite Hurl, Hname. repeat split; now left. }
  destruct b; step;
    match goal with
    | |- context [channel_reply env ?t message ?p] =>
        destruct (channel_reply env t message p) as [e |] eqn:Hsent
    end;
    (do 2 eexists; split; [ ran_segments | ];
     autorewrite with trace; rewrite Hurl, Hname;
     repeat split; try reflexivity;
     first [ now left
           | right; split; [ reflexivity | ];
             do 3 eexists; split; [ reflexivity | ];
             split; [ reflexivity | ];
             split; [ first [ now left | now right ] | ];
             eapply sent_at; [ | exact Hsent ]; grown ]).
Qed.

(** The loop handles the attachments in order and forwards each image it
    reaches once; it stops early only on a refused acknowledgment. *)
Lemma forEach_attachments atts :
  forall w,
  exists r new done rest,
    atts = done ++ rest
    /\ forEach atts (handleAttachment cfg message) env w = (r, grow w new)
    /\ forwardedUrls new = map att_url (filter isImage done)
    /\ forwardedNames new = map nameArg (filter isImage done)
    /\ (filter isImage atts = [] -> fetches new = [] /\ replies new = [])
    /\ (r = Returned tt /\ rest = []
        \/ inGuild message = false
           /\ exists before payload e,
                r = Thrown e
                /\ new = before ++ [EvReply (id message) payload (Some e)]
                /\ (payload = ReplyText GOT_IT \/ payload = ReplyText SORRY)
                /\ channel_reply env (trace w ++ before) message payload = Some e).
Proof.
  induction atts as [| att atts IH]; intros w.
  - exists (Returned tt), [], [], []. split; [ reflexivity | ].
    split; [ ran | ]. repeat split. now left.
  - cbn [forEach filter]. unfold bind.
    destruct (isImage att) eqn:Himg.
    + destruct (handleAttachment_image_run att w Himg)
        as (r1 & seg & -> & Hurl & Hname & Hr1).
      destruct Hr1 as [-> | (Hdm & before & payload & e & -> & Hseg & Hack & Hsent)].
      * destruct (IH (grow w seg))
          as (r & new & done & rest & -> & -> & Hurls & Hnames & _ & Hend).
        exists r, (seg ++ new), (att :: done), rest.
        split; [ reflexivity | ]. split; [ ran_segments | ].
        autorewrite with trace. cbn [filter map]. rewrite Himg, Hurl, Hname, Hurls, Hnames.
        repeat split; try discriminate.
        destruct Hend as [Hend | (Hdm & before & payload & e & -> & -> & Hack & Hsent)];
          [ now left | right ].
        split; [ exact Hdm | ]. exists (seg ++ before), payload, e.
        repeat split; auto using app_assoc.
        cbn [grow trace] in Hsent. now rewrite app_assoc.
      * exists (Thrown e), seg, [att], atts.
        split; [ reflexivity | ]. split; [ ran_segments | ].
        cbn [filter map]. rewrite Himg, Hurl, Hname.
        repeat split; try discriminate.
        right. split; [ exact Hdm | ]. now exists before, payload, e.
    + destruct (handleAttachment_skip cfg message att env w Himg)
        as (seg & -> & Hf & Hr & Hurl & Hname).
      destruct (IH (grow w seg))
        as (r & new & done & rest & -> & -> & Hurls & Hnames & Hnone & Hend).
      exists r, (seg ++ new), (att :: done), rest.
      split; [ reflexivity | ]. split; [ ran_segments | ].
      autorewrite with trace. cbn [filter map].
      rewrite Himg, Hf, Hr, Hurl, Hname, Hurls, Hnames.
      repeat split; try (now apply Hnone).
      destruct Hend as [Hend | (Hdm & before & payload & e & -> & -> & Hack & Hsent)];
        [ now left | right ].
      split; [ exact Hdm | ]. exists (seg ++ before), payload, e.
      repeat split; auto using app_assoc.
      cbn [grow trace] in Hsent. now rewrite app_assoc.
Qed.

(** C5 (amended): a message with attachments that reaches the relay step is
    always handled to the end, and its attachments are processed in order:
    [forwardAttachment] is entered exactly once, with the attachment's URL
    and name, for each processed attachment whose declared content type
    contains image/jpeg, image/png, image/webp or image/gif, and an
    attachment outside the set is skipped at the cost of two console lines,
    without a request and without a reply.  In a guild channel, and whenever
    every acknowledgment reply is delivered, all attachments are processed.
    Attachments are left unprocessed only in a direct message and only after
    an acknowledgment reply that was refused: that reply ends the loop, the
    two console lines of the catch block being all that follows it. *)
Theorem image_attachments_forwarded_once_each w :
  relayed cfg message = true -> attachments message <> [] ->
  exists new done rest,
    attachments message = done ++ rest
    /\ handleMessage cfg message env w = (Returned tt, grow w new)
    /\ forwardedUrls new = map att_url (filter isImage done)
    /\ forwardedNames new = map nameArg (filter isImage done)
    /\ (inGuild message = true \/ acknowledged env message ->
        rest = []
        /\ forwardedUrls new = map att_url (filter isImage (attachments message))
        /\ forwardedNames new = map nameArg (filter isImage (attachments message)))
    /\ (rest = []
        \/ inGuild message = false
           /\ exists before payload e,
                new = before ++ EvReply (id message) payload (Some e) :: caught e
                /\ (payload = ReplyText GOT_IT \/ payload = ReplyText SORRY))
    /\ (filter isImage (attachments message) = [] -> fetches new = [] /\ replies new = [])
    /\ (forall att w0,
          isImage att = false ->
          exists skipped,
            handleAttachment cfg message att env w0 = (Returned tt, grow w0 skipped)
            /\ fetches skipped = [] /\ replies skipped = [] /\ forwardedUrls skipped = []).
Proof.
  intros (Hbot & Hcmd & Hflt)%relayed_inv Hsome.
  rewrite handleMessage_catches, route_relay by assumption.
  unfold relay. step.
  destruct (attachments message) as [| att atts] eqn:Hatts; [ congruence | ].
  cbn [length Nat.ltb Nat.leb].
  match goal with
  | |- context [grow (emit ?ev _) _] => set (line := ev)
  | |- context [forEach _ _ env (emit ?ev _)] => set (line := ev)
  end.
  destruct (forEach_attachments (att :: atts) (emit line (grow w (received message))))
    as (r & new & done & rest & Hsplit & -> & Hurls & Hnames & Hnone & Hend).
  destruct (received_silent message) as (Rf & _ & Rr & Ru & Rn).
  assert (Lf : fetches [line] = []) by reflexivity.
  assert (Lr : replies [line] = []) by reflexivity.
  assert (Lu : forwardedUrls [line] = []) by reflexivity.
  assert (Ln : forwardedNames [line] = []) by reflexivity.
  assert (Hskip : forall a w0,
             isImage a = false ->
             exists skipped,
               handleAttachment cfg message a env w0 = (Returned tt, grow w0 skipped)
               /\ fetches skipped = [] /\ replies skipped = []
               /\ forwardedUrls skipped = []).
  { intros a w0 Himg.
    destruct (handleAttachment_skip cfg message a env w0 Himg) as (seg & ? & ? & ? & ? & _).
    now exists seg. }
  destruct Hend as [[-> ->] | (Hdm & before & payload & e & -> & -> & Hack & Hsent)].
  - rewrite app_nil_r in Hsplit. subst done.
    exists (received message ++ [line] ++ new), (att :: atts), [].
    split; [ now rewrite app_nil_r | ].
    split; [ eapply run_eq; [ reflexivity | grown | now rewrite !app_assoc ] | ].
    autorewrite with trace. rewrite Rf, Rr, Ru, Rn, Lf, Lr, Lu, Ln. cbn [app].
    repeat split; auto; try (now apply Hnone).
  - destruct (caught_silent e) as (_ & _ & _ & Cu & Cn).
    remember (before ++ [EvReply (id message) payload (Some e)]) as looped eqn:Hlooped.
    exists (received message ++ [line] ++ looped ++ caught e), done, rest.
    split; [ exact Hsplit | ].
    split; [ eapply run_eq; [ reflexivity | grown | now rewrite !app_assoc ] | ].
    autorewrite with trace. rewrite Rf, Rr, Ru, Rn, Lf, Lr, Lu, Ln, Cu, Cn. cbn [app].
    rewrite !app_nil_r.
    split; [ exact Hurls | ]. split; [ exact Hnames | ].
    split; [ | split; [ | split; [ | exact Hskip ] ] ].
    + intros [Hg | Hall]; [ congruence | ].
      exfalso. destruct (Hall (trace (emit line (grow w (received message))) ++ before))
        as [Hgot Hsorry].
      destruct Hack as [-> | ->]; congruence.
    + right. split; [ exact Hdm | ].
      exists (received message ++ line :: before), payload, e.
      split; [ | exact Hack ].
      subst looped. rewrite <- !app_assoc. reflexivity.
    + intros Himgs. exfalso. destruct (Hnone Himgs) as [_ Hnoreply].
      subst looped. rewrite replies_app in Hnoreply.
      apply (f_equal (@length _)) in Hnoreply.
      rewrite length_app in Hnoreply. cbn in Hnoreply. lia.
Qed.

End Loop.

Lemma image_attachments_forwarded_once_each_witness :
  relayed Sample.cfg (Sample.message None "" [Sample.png; Sample.pdf; Sample.png]) = true
  /\ acknowledged Sample.promptRefused
       (Sample.message None "" [Sample.png; Sample.pdf; Sample.png])
  /\ exists new,
       handleMessage Sample.cfg (Sample.message None "" [Sample.png; Sample.pdf; Sample.png])
         Sample.promptRefused Sample.stopped
       = (Returned tt, grow Sample.stopped new)
       /\ forwardedUrls new
          = ["https://cdn.example/cat.png"; "https://cdn.example/cat.png"]
       /\ forwardedNames new = [Some "cat.png"; Some "cat.png"].
Proof.
  assert (Hack : acknowledged Sample.promptRefused
                   (Sample.message None "" [Sample.png; Sample.pdf; Sample.png])).
  { intros t. split; reflexivity. }
  split; [ reflexivity | ]. split; [ exact Hack | ].
  destruct (image_attachments_forwarded_once_each Sample.cfg
              (Sample.message None "" [Sample.png; Sample.pdf; Sample.png])
              Sample.promptRefused Sample.stopped eq_refl)
    as (new & done & rest & _ & Hrun & _ & _ & Hall & _).
  - discriminate.
  - destruct (Hall (or_intror Hack)) as (_ & Hurls & Hnames).
    now exists new.
Defined.

(** C5, as stated, fails in a direct message: both attachments below are
    PNG images, the acknowledgment of the first is refused by Discord, the
    exception leaves the loop, and the second image is never forwarded. *)
Lemma refused_acknowledgment_drops_later_images :
  relayed Sample.cfg (Sample.message None "" [Sample.png; Sample.png]) = true
  /\ map att_url (filter isImage
                    (attachments (Sample.message None "" [Sample.png; Sample.png])))
     = ["https://cdn.example/cat.png"; "https://cdn.example/cat.png"]
  /\ forwardedUrls (trace (snd (handleMessage Sample.cfg
                                  (Sample.message None "" [Sample.png; Sample.png])
                                  (Sample.serving Sample.registeredBody true)
                                  Sample.stopped)))
     = ["https://cdn.example/cat.png"].
Proof. repeat split. Qed.

Example pdf_is_skipped :
  isImage Sample.pdf = false
  /\ snd (handleMessage Sample.cfg (Sample.message None "" [Sample.pdf])
            (Sample.serving Sample.registeredBody false) Sample.stopped)
     = grow Sample.stopped
         (received (Sample.message None "" [Sample.pdf])
          ++ [EvLog Info [LStr "📎 [DISCORD] Message has"; LNum 1; LStr "attachments"];
              EvLog Info [LStr "📎 [DISCORD] Processing attachment:"; LStr "doc.pdf";
                          LStr "type:"; LOpt (Some "application/pdf");
                          LStr "size:"; LNum 3];
              EvLog Info [LStr "⚠️ [DISCORD] Attachment is not a supported image type"]]).
Proof. split; reflexivity. Qed.

(* ================================================================== *)
(** ** The registration command *)

(** Runs a method to each of its ends, splitting on what the outside and the
    parsed bodies can be. *)
Ltac explore :=
  repeat (step;
    match goal with
    | |- context [net_fetch ?e ?t ?r] => destruct (net_fetch e t r) as [? | ?]
    | |- context [channel_reply ?e ?t ?m ?p] => destruct (channel_reply e t m p) as [? |]
    | |- context [match bodyJson ?r with _ => _ end] => destruct (bodyJson r) as [? |]
    | |- context [match ?v with VUndefined => _ | _ => _ end] => is_var v; destruct v
    | |- context [if ?b then _ else _] => destruct b eqn:?
    end).

(** The one request of the OAuth flow, for the author of a message. *)
Lemma handleRegistrationCommand_effect cfg message env w :
  exists r new,
    handleRegistrationCommand cfg message env w = (r, grow w new)
    /\ if String.eqb (JsString.trim (content message)) "!register"
       then exists out,
           fetches new
           = [({| req_method := POST;
                  req_url := oauthInitUrl cfg;
                  req_headers := [("Content-Type", "application/json")];
                  req_body :=
                    JsonText (VObj [("discordId", VStr (user_id (author message)));
                                    ("discordUsername", VStr (username (author message)))]) |},
               out)]
       else fetches new = []
            /\ exists rest, replies new = ReplyText INVALID_FORMAT :: rest.
Proof.
  unfold handleRegistrationCommand, oauthInitRequest.
  destruct (String.eqb (JsString.trim (content message)) "!register"); cbn [negb].
  - explore;
      (do 2 eexists; split; [ ran | eexists; reflexivity ]).
  - explore;
      (do 2 eexists; split; [ ran | split; [ reflexivity | eexists; reflexivity ] ]).
Qed.

(** C6 (amended): [handleRegistrationCommand] makes exactly one request when
    the trimmed content is exactly [!register]: a POST to the receiver URL
    with its image path replaced by the OAuth initiation path, with a JSON
    content type, whose body is the object of the author's id (discordId) and
    username (discordUsername).  With any other content it makes no request
    at all and its first reply is the rejection of the format.  The same
    holds of [handleMessage] on every message the router takes for a
    registration command: the author is no bot and the content, untrimmed,
    starts with [!register]. *)
Theorem registration_command_takes_no_argument cfg message env w :
  (exists r new,
      handleRegistrationCommand cfg message env w = (r, grow w new)
      /\ if String.eqb (JsString.trim (content message)) "!register"
         then exists out,
             fetches new
             = [({| req_method := POST;
                    req_url := JsString.replace (RECEIVER_URL cfg) "/api/receiver/image"
                                 "/api/auth/oauth/initiate";
                    req_headers := [("Content-Type", "application/json")];
                    req_body :=
                      JsonText (VObj [("discordId", VStr (user_id (author message)));
                                      ("discordUsername",
                                       VStr (username (author message)))]) |},
                 out)]
         else fetches new = []
              /\ exists rest, replies new = ReplyText INVALID_FORMAT :: rest)
  /\ (bot (author message) = false ->
      JsString.startsWith (content message) "!register" = true ->
      exists new,
        handleMessage cfg message env w = (Returned tt, grow w new)
        /\ if String.eqb (JsString.trim (content message)) "!register"
           then exists out,
               fetches new
               = [({| req_method := POST;
                      req_url := JsString.replace (RECEIVER_URL cfg) "/api/receiver/image"
                                   "/api/auth/oauth/initiate";
                      req_headers := [("Content-Type", "application/json")];
                      req_body :=
                        JsonText (VObj [("discordId", VStr (user_id (author message)));
                                        ("discordUsername",
                                         VStr (username (author message)))]) |},
                   out)]
           else fetches new = []
                /\ exists rest, replies new = ReplyText INVALID_FORMAT :: rest).
Proof.
  split; [ apply handleRegistrationCommand_effect | ].
  intros Hbot Hreg.
  rewrite handleMessage_catches, route_register by assumption.
  destruct (handleRegistrationCommand_effect cfg message env (grow w (received message)))
    as (r & seg & -> & Hseg).
  unfold oauthInitUrl in Hseg.
  destruct (received_silent message) as (Rf & _ & Rr & _).
  destruct r as [[] | e].
  - exists (received message ++ seg). split; [ ran_segments | ].
    autorewrite with trace. rewrite Rf, Rr. exact Hseg.
  - destruct (caught_silent e) as (Cf & _ & Cr & _).
    exists (received message ++ seg ++ caught e).
    split; [ eapply run_eq; [ reflexivity | grown | now rewrite !app_assoc ] | ].
    autorewrite with trace. rewrite Rf, Rr, Cf, Cr. cbn [app]. rewrite !app_nil_r.
    exact Hseg.
Qed.

Lemma registration_command_takes_no_argument_witness :
  exists new,
    handleMessage Sample.cfg (Sample.message None "!register  " [])
      (Sample.serving Sample.registeredBody false) Sample.stopped
    = (Returned tt, grow Sample.stopped new)
    /\ exists out,
         fetches new
         = [({| req_method := POST;
                req_url := "http://localhost:3000/api/auth/oauth/initiate";
                req_headers := [("Content-Type", "application/json")];
                req_body := JsonText (VObj [("discordId", VStr "42");
                                            ("discordUsername", VStr "alice")]) |},
             out)].
Proof.
  apply (registration_command_takes_no_argument Sample.cfg
           (Sample.message None "!register  " [])
           (Sample.serving Sample.registeredBody false) Sample.stopped);
    reflexivity.
Defined.

(** C6, as stated, fails on a message with white space before the command:
    its trimmed content is exactly [!register] and its author is no bot, yet
    the router, which tests the untrimmed content, does not take it for a
    command; no OAuth initiation is requested and the text is forwarded to
    the receiver instead. *)
Lemma register_after_white_space_is_forwarded_as_text :
  bot (author (Sample.message None " !register" [])) = false
  /\ JsString.trim (content (Sample.message None " !register" [])) = "!register"
  /\ fetches (trace (snd (handleMessage Sample.cfg (Sample.message None " !register" [])
                            (Sample.serving Sample.registeredBody false) Sample.stopped)))
     = [({| req_method := POST;
            req_url := "http://localhost:3000/api/receiver/image";
            req_headers := [("x-receiver-token", "secret")];
            req_body :=
              FormData [FormField "text" (VStr "!register");
                        FormField "source" (VStr "discord");
                        FormField "discordMessageId" (VStr "m1");
                        FormField "discordChannelId" (VStr "300");
                        FormField "discordAuthorId" (VStr "42")] |},
         Responded (Sample.answer 200 (Some (VObj [("success", VBool true);
                                                   ("authUrl",
                                                    VStr "https://auth.example/x")]))))].
Proof. repeat split. Qed.

Example register_alone_initiates_oauth :
  fetches (trace (snd (handleMessage Sample.cfg (Sample.message None "!register" [])
                         (Sample.serving Sample.registeredBody false) Sample.stopped)))
  = [(oauthInitRequest Sample.cfg "42" "alice",
      Responded (Sample.answer 200 (Some (VObj [("success", VBool true);
                                                ("authUrl", VStr "https://auth.example/x")]))))]
  /\ replies (trace (snd (handleMessage Sample.cfg (Sample.message None "!register" [])
                            (Sample.serving Sample.registeredBody false) Sample.stopped)))
     = [ReplyAuthLink (VStr "https://auth.example/x")].
Proof. split; reflexivity. Qed.

Example register_with_argument_is_rejected :
  fetches (trace (snd (handleMessage Sample.cfg
                         (Sample.message None "!register extra-arg" [])
                         (Sample.serving Sample.registeredBody false) Sample.stopped)))
  = []
  /\ replies (trace (snd (handleMessage Sample.cfg
                            (Sample.message None "!register extra-arg" [])
                            (Sample.serving Sample.registeredBody false) Sample.stopped)))
     = [ReplyText INVALID_FORMAT].
Proof. split; reflexivity. Qed.

(* ================================================================== *)
(** ** Decision order of the router *)

Lemma arrayIncludes_In xs x : JsString.arrayIncludes xs x = true <-> In x xs.
Proof.
  unfold JsString.arrayIncludes. rewrite existsb_exists. split.
  - intros (y & Hy & ->%String.eqb_eq). exact Hy.
  - intros Hx. exists x. split; [ exact Hx | apply String.eqb_refl ].
Qed.

Lemma filtered_iff cfg message :
  filtered cfg message = true <->
  inGuild message = true /\ ALLOWED_CHANNELS cfg <> []
  /\ ~ In (channelId message) (ALLOWED_CHANNELS cfg).
Proof.
  unfold filtered. rewrite !andb_true_iff, negb_true_iff, <- arrayIncludes_In.
  destruct (ALLOWED_CHANNELS cfg) as [| c cs]; cbn [length Nat.ltb Nat.leb].
  - split; [ intros [[_ H] _]; discriminate | intros (_ & H & _); congruence ].
  - split.
    + intros [[Hg _] Hin]. repeat split; [ exact Hg | discriminate | congruence ].
    + intros (Hg & _ & Hin). repeat split; [ exact Hg | ].
      destruct (JsString.arrayIncludes (c :: cs) (channelId message)); congruence.
Qed.

(** C3: for a message whose author is no bot and whose content starts with
    [!register] or equals [!status] or [!whoami], [handleMessage] is the
    command's handler run under the router's [catch], the registration
    handler taking precedence; the allow-list is not looked at, so the
    outcome is the same whatever the list of allowed channels is. *)
Theorem commands_are_routed_before_the_channel_filter cfg message env w :
  bot (author message) = false -> isCommand message = true ->
  handleMessage cfg message env w
  = tryCatch (if JsString.startsWith (content message) "!register"
              then handleRegistrationCommand cfg message
              else handleStatusCommand cfg message)
      logHandlerError env (grow w (received message))
  /\ forall channels,
       handleMessage (withChannels cfg channels) message env w
       = handleMessage cfg message env w.
Proof.
  intros Hbot Hcmd.
  assert (Hroute : forall c,
             route c message env w
             = (if JsString.startsWith (content message) "!register"
                then handleRegistrationCommand c message
                else handleStatusCommand c message) env (grow w (received message))).
  { intros c. unfold isCommand in Hcmd. rewrite <- orb_assoc in Hcmd.
    destruct (JsString.startsWith (content message) "!register") eqn:Hreg.
    - now apply route_register.
    - now apply route_status. }
  split.
  - unfold handleMessage, tryCatch. now rewrite Hroute.
  - intros channels. unfold handleMessage, tryCatch. rewrite !Hroute.
    destruct (JsString.startsWith (content message) "!register"); reflexivity.
Qed.

Lemma commands_are_routed_before_the_channel_filter_witness :
  filtered Sample.restricted (Sample.message (Some "900") "!status" []) = true
  /\ handleMessage Sample.restricted (Sample.message (Some "900") "!status" [])
       (Sample.serving Sample.registeredBody false) Sample.stopped
     = tryCatch (handleStatusCommand Sample.restricted
                   (Sample.message (Some "900") "!status" []))
         logHandlerError (Sample.serving Sample.registeredBody false)
         (grow Sample.stopped (received (Sample.message (Some "900") "!status" []))).
Proof.
  split; [ reflexivity | ].
  apply (commands_are_routed_before_the_channel_filter Sample.restricted
           (Sample.message (Some "900") "!status" [])
           (Sample.serving Sample.registeredBody false) Sample.stopped);
    reflexivity.
Defined.

Example command_in_a_filtered_channel_is_answered :
  replies (trace (snd (handleMessage Sample.restricted
                         (Sample.message (Some "900") "!whoami" [])
                         (Sample.serving Sample.registeredBody false) Sample.stopped)))
  = [ReplyStatusActive (VObj [("discordId", VStr "42");
                              ("email", VStr "alice@example.org")])].
Proof. reflexivity. Qed.

(** C4: for a message whose author is no bot and whose content is no
    command, the filter applies exactly to a guild message whose channel is
    missing from a non-empty allow-list; such a message ends in three console
    lines, without any request or reply.  Every other message, so every guild
    message under an empty allow-list and every direct message under any
    allow-list, goes on to the relay step. *)
Theorem channel_filter_spares_direct_messages cfg message env w :
  bot (author message) = false -> isCommand message = false ->
  (filtered cfg message = true <->
   inGuild message = true /\ ALLOWED_CHANNELS cfg <> []
   /\ ~ In (channelId message) (ALLOWED_CHANNELS cfg))
  /\ (filtered cfg message = true ->
      exists new,
        handleMessage cfg message env w = (Returned tt, grow w new)
        /\ fetches new = [] /\ replies new = [] /\ forwardedUrls new = [])
  /\ (ALLOWED_CHANNELS cfg = [] \/ inGuild message = false ->
      handleMessage cfg message env w
      = tryCatch (relay cfg message) logHandlerError env (grow w (received message))).
Proof.
  intros Hbot Hcmd. split; [ apply filtered_iff | split ].
  - intros Hf. rewrite handleMessage_catches, route_filtered by assumption.
    eexists. split; [ reflexivity | repeat split ].
  - intros Hfree.
    assert (Hf : filtered cfg message = false).
    { destruct (filtered cfg message) eqn:Hf; [ | reflexivity ].
      apply filtered_iff in Hf. destruct Hf as (Hg & Hne & _).
      destruct Hfree; congruence. }
    unfold handleMessage, tryCatch. now rewrite route_relay.
Qed.

Lemma channel_filter_spares_direct_messages_witness :
  (exists new,
      handleMessage Sample.restricted (Sample.message (Some "900") "hello" [Sample.png])
        (Sample.serving Sample.registeredBody false) Sample.stopped
      = (Returned tt, grow Sample.stopped new)
      /\ fetches new = [] /\ replies new = [] /\ forwardedUrls new = [])
  /\ handleMessage Sample.restricted (Sample.message None "hello" [Sample.png])
       (Sample.serving Sample.registeredBody false) Sample.stopped
     = tryCatch (relay Sample.restricted (Sample.message None "hello" [Sample.png]))
         logHandlerError (Sample.serving Sample.registeredBody false)
         (grow Sample.stopped (received (Sample.message None "hello" [Sample.png]))).
Proof.
  split.
  - apply (channel_filter_spares_direct_messages Sample.restricted
             (Sample.message (Some "900") "hello" [Sample.png])
             (Sample.serving Sample.registeredBody false) Sample.stopped);
      reflexivity.
  - apply (channel_filter_spares_direct_messages Sample.restricted
             (Sample.message None "hello" [Sample.png])
             (Sample.serving Sample.registeredBody false) Sample.stopped);
      [ reflexivity | reflexivity | right; reflexivity ].
Defined.

Example direct_message_is_forwarded_under_any_allow_list :
  forwardedUrls (trace (snd (handleMessage Sample.restricted
                               (Sample.message None "hello" [Sample.png])
                               (Sample.serving Sample.registeredBody false)
                               Sample.stopped)))
  = ["https://cdn.example/cat.png"].
Proof. reflexivity. Qed.

(* ================================================================== *)
(** ** Exceptions stop at the router *)

(** C8: [handleMessage] returns normally for every message, in every
    environment and from every state; when a step below it throws, the state
    it returns is the one the exception left, extended by the two console
    lines of the [catch] block, the first of which carries the error. *)
Theorem handleMessage_never_throws cfg message env w :
  exists w',
    handleMessage cfg message env w = (Returned tt, w')
    /\ match route cfg message env w with
       | (Returned _, w1) => w' = w1
       | (Thrown e, w1) => w' = grow w1 (caught e) /\ handlerErrors (caught e) = [e]
       end.
Proof.
  rewrite handleMessage_catches.
  destruct (route cfg message env w) as [[[] | e] w1]; eexists; split; try reflexivity.
  split; reflexivity.
Qed.

Example refused_reply_is_caught_and_logged :
  fst (handleMessage Sample.cfg (Sample.message None "!status" [])
         (Sample.serving Sample.registeredBody true) Sample.stopped)
  = Returned tt
  /\ handlerErrors (trace (snd (handleMessage Sample.cfg (Sample.message None "!status" [])
                                  (Sample.serving Sample.registeredBody true)
                                  Sample.stopped)))
     = [Error "Cannot send messages to this user"].
Proof. split; reflexivity. Qed.

Example unreachable_receiver_is_survived :
  fst (handleMessage Sample.cfg (Sample.message None "hello" [Sample.png])
         Sample.offline Sample.stopped)
  = Returned tt.
Proof. reflexivity. Qed.

(* ================================================================== *)
(** ** Lifecycle *)

Ltac lifecycle :=
  lazy beta iota zeta delta
    [start stop bind tryCatch ret throw getRunning getClient setRunning setClient
     login destroy validateConfig setupEventHandlers console_log console_error absent].

Lemma start_running cfg env w :
  isRunning w = true ->
  start cfg env w
  = (Returned tt, grow w [EvLog Info [LStr "Discord bot is already running"]]).
Proof. intros Hrun. lifecycle. now rewrite Hrun. Qed.

Lemma start_failure cfg env w e w' :
  start cfg env w = (Thrown e, w') ->
  isRunning w = false /\ isRunning w' = false
  /\ exists new,
       trace w' = trace w ++ new ++ [EvLog Err [LStr "Failed to start Discord bot:"; LErr e]].
Proof.
  lifecycle. destruct (isRunning w) eqn:Hrun; [ discriminate | ].
  destruct (missing (BOT_TOKEN cfg)).
  { intros [= <- <-]. repeat split; auto. now exists []. }
  destruct (String.eqb (RECEIVER_TOKEN cfg) "").
  { intros [= <- <-]. repeat split; auto. now exists []. }
  destruct (String.eqb (RECEIVER_URL cfg) "").
  { intros [= <- <-]. repeat split; auto. now exists []. }
  cbn [client trace isRunning].
  destruct (gateway_login env (trace w) (BOT_TOKEN cfg)) as [err |]; [ | discriminate ].
  intros [= <- <-]. repeat split; auto.
  exists [EvLogin (BOT_TOKEN cfg) (Some err)].
  cbn [trace emit]. now rewrite <- app_assoc.
Qed.

Lemma stop_stopped env w :
  isRunning w = false \/ client w = None -> stop env w = (Returned tt, w).
Proof.
  intros Hoff. lifecycle.
  destruct (isRunning w), (client w); cbn [negb orb]; try reflexivity.
  destruct Hoff; discriminate.
Qed.

(** A running service has a client. *)
Lemma perform_keeps_client env w c :
  (isRunning w = true -> client w <> None) ->
  isRunning (perform env w c) = true -> client (perform env w c) <> None.
Proof.
  intros Hinv. destruct c as [cfg |]; cbn [perform].
  - lifecycle. destruct (isRunning w) eqn:Hrun.
    { intros _. cbn. now apply Hinv. }
    destruct (missing (BOT_TOKEN cfg)); [ cbn; congruence | ].
    destruct (String.eqb (RECEIVER_TOKEN cfg) ""); [ cbn; congruence | ].
    destruct (String.eqb (RECEIVER_URL cfg) ""); [ cbn; congruence | ].
    cbn [client trace isRunning].
    destruct (gateway_login env (trace w) (BOT_TOKEN cfg)); cbn; congruence.
  - lifecycle. destruct (isRunning w) eqn:Hrun, (client w) eqn:Hc; cbn [negb orb snd];
      try congruence.
    + destruct (gateway_destroy env (trace w)); cbn; congruence.
    + intros _. exfalso. now apply Hinv.
Qed.

Lemma running_has_client calls env :
  isRunning (after calls env) = true -> client (after calls env) <> None.
Proof.
  unfold after. induction calls as [| c calls IH] using rev_ind.
  - discriminate.
  - rewrite fold_left_app. cbn [fold_left]. now apply perform_keeps_client.
Qed.

(** The two ways a startup fails, and the way it succeeds. *)
Lemma start_invalid cfg env w :
  isRunning w = false ->
  BOT_TOKEN cfg = None \/ BOT_TOKEN cfg = Some "" \/ RECEIVER_TOKEN cfg = ""
  \/ RECEIVER_URL cfg = "" ->
  exists text,
    start cfg env w
    = (Thrown (Error text),
       grow w [EvLog Err [LStr "Failed to start Discord bot:"; LErr (Error text)]]).
Proof.
  intros Hrun Hbad. lifecycle. rewrite Hrun.
  destruct (missing (BOT_TOKEN cfg)) eqn:Hb; [ eexists; reflexivity | ].
  destruct (String.eqb (RECEIVER_TOKEN cfg) "") eqn:Ht; [ eexists; reflexivity | ].
  destruct (String.eqb (RECEIVER_URL cfg) "") eqn:Hu; [ eexists; reflexivity | ].
  exfalso. apply String.eqb_neq in Ht, Hu.
  destruct Hbad as [Hbad | [Hbad | [Hbad | Hbad]]]; try contradiction;
    rewrite Hbad in Hb; discriminate Hb.
Qed.

Lemma start_valid cfg env w token :
  isRunning w = false ->
  BOT_TOKEN cfg = Some token -> token <> "" ->
  RECEIVER_TOKEN cfg <> "" -> RECEIVER_URL cfg <> "" ->
  start cfg env w
  = match gateway_login env (trace w) (Some token) with
    | Some e =>
        (Thrown e,
         {| trace := trace w ++ [EvLogin (Some token) (Some e);
                                 EvLog Err [LStr "Failed to start Discord bot:"; LErr e]];
            client := Some listening;
            isRunning := false |})
    | None =>
        (Returned tt,
         {| trace := trace w ++ [EvLogin (Some token) None;
                                 EvLog Info [LStr "🤖 Discord bot service started successfully"]];
            client := Some listening;
            isRunning := true |})
    end.
Proof.
  intros Hrun Hb Hn%String.eqb_neq Ht%String.eqb_neq Hu%String.eqb_neq.
  lifecycle. rewrite Hrun, Hb. cbn [missing]. rewrite Hn, Ht, Hu.
  cbn [client trace isRunning].
  destruct (gateway_login env (trace w) (Some token));
    unfold emit; cbn [trace client isRunning]; now rewrite <- app_assoc, ?Hrun.
Qed.

(** C9: in the state reached by any sequence of [start] and [stop] calls on
    a new service: [start] on a running service only writes one console line
    and changes neither field.  On a service that is not running, [start]
    with a bot token, receiver token or receiver URL missing throws the
    validation error after logging it, with nothing else done; with a
    complete configuration it throws the very error of a refused login,
    after logging it, and [isRunning] stays false; only an accepted login
    makes it return normally, with [isRunning] true.  Whenever [start]
    throws, the service was not running and is not running afterwards.
    [stop] on a service that is not running returns the state as it was; and
    a running service always has its client. *)
Theorem lifecycle_guards calls env cfg :
  let w := after calls env in
  (isRunning w = true ->
   start cfg env w
   = (Returned tt, grow w [EvLog Info [LStr "Discord bot is already running"]]))
  /\ (isRunning w = false ->
      BOT_TOKEN cfg = None \/ BOT_TOKEN cfg = Some "" \/ RECEIVER_TOKEN cfg = ""
      \/ RECEIVER_URL cfg = "" ->
      exists text,
        start cfg env w
        = (Thrown (Error text),
           grow w [EvLog Err [LStr "Failed to start Discord bot:"; LErr (Error text)]]))
  /\ (isRunning w = false ->
      forall token,
      BOT_TOKEN cfg = Some token -> token <> "" ->
      RECEIVER_TOKEN cfg <> "" -> RECEIVER_URL cfg <> "" ->
      match gateway_login env (trace w) (Some token) with
      | Some e =>
          fst (start cfg env w) = Thrown e
          /\ isRunning (snd (start cfg env w)) = false
          /\ trace (snd (start cfg env w))
             = trace w ++ [EvLogin (Some token) (Some e);
                           EvLog Err [LStr "Failed to start Discord bot:"; LErr e]]
      | None =>
          fst (start cfg env w) = Returned tt
          /\ isRunning (snd (start cfg env w)) = true
      end)
  /\ (forall e w',
        start cfg env w = (Thrown e, w') ->
        isRunning w = false /\ isRunning w' = false
        /\ exists new,
             trace w' = trace w ++ new
                        ++ [EvLog Err [LStr "Failed to start Discord bot:"; LErr e]])
  /\ (isRunning w = false -> stop env w = (Returned tt, w))
  /\ (isRunning w = true -> client w <> None).
Proof.
  intros w. split; [ apply start_running | ].
  split; [ apply start_invalid | ].
  split; [ | split; [ apply start_failure | split ] ].
  - intros Hrun token Hb Hn Ht Hu.
    rewrite (start_valid cfg env w token Hrun Hb Hn Ht Hu).
    destruct (gateway_login env (trace w) (Some token)); repeat split.
  - intros Hoff. apply stop_stopped. now left.
  - apply running_has_client.
Qed.

Example start_without_token_throws :
  start {| BOT_TOKEN := None; RECEIVER_URL := "http://localhost:3000/api/receiver/image";
           RECEIVER_TOKEN := "secret"; ALLOWED_CHANNELS := [] |}
        (Sample.serving Sample.registeredBody false) Sample.stopped
  = (Thrown (Error "Missing DISCORD_BOT_TOKEN in environment variables"),
     grow Sample.stopped
       [EvLog Err [LStr "Failed to start Discord bot:";
                   LErr (Error "Missing DISCORD_BOT_TOKEN in environment variables")]]).
Proof. reflexivity. Qed.

Example start_with_refused_login_throws :
  fst (start Sample.cfg Sample.offline Sample.stopped) = Thrown (Error "ECONNREFUSED")
  /\ isRunning (snd (start Sample.cfg Sample.offline Sample.stopped)) = false.
Proof. split; reflexivity. Qed.

Example start_then_start_then_stop_then_stop :
  let env := Sample.serving Sample.registeredBody false in
  let w1 := snd (start Sample.cfg env Sample.stopped) in
  let w2 := snd (start Sample.cfg env w1) in
  let w3 := snd (stop env w2) in
  let w4 := snd (stop env w3) in
  isRunning w1 = true /\ client w1 = client Sample.running
  /\ client w2 = client w1 /\ isRunning w2 = true
  /\ isRunning w3 = false /\ client w3 = None /\ w4 = w3.
Proof. repeat split. Qed.

(** C10: when the teardown of a running service throws, [stop] returns
    normally after logging the error, both fields stay as they were
    ([isRunning] true, the client kept), and the next [stop] calls the
    teardown again. *)
Theorem stop_swallows_teardown_failure env w c e :
  isRunning w = true -> client w = Some c -> gateway_destroy env (trace w) = Some e ->
  stop env w
  = (Returned tt,
     grow w [EvDestroy (Some e); EvLog Err [LStr "Error stopping Discord bot:"; LErr e]])
  /\ isRunning (snd (stop env w)) = true
  /\ client (snd (stop env w)) = Some c
  /\ exists again rest w'',
       stop env (snd (stop env w)) = (Returned tt, w'')
       /\ trace w'' = trace (snd (stop env w)) ++ EvDestroy again :: rest.
Proof.
  intros Hrun Hc He.
  assert (Hstop : stop env w
                  = (Returned tt,
                     grow w [EvDestroy (Some e);
                             EvLog Err [LStr "Error stopping Discord bot:"; LErr e]])).
  { lifecycle. rewrite Hrun, Hc. cbn [negb orb]. rewrite He.
    f_equal. apply world_eq; cbn [trace client isRunning emit grow]; auto.
    now rewrite <- app_assoc. }
  rewrite Hstop. cbn [snd]. repeat split; auto.
  lifecycle. cbn [isRunning client grow]. rewrite Hrun, Hc. cbn [negb orb].
  match goal with
  | |- context [gateway_destroy env ?t] => destruct (gateway_destroy env t) as [e' |]
  end.
  - do 3 eexists. split; [ reflexivity | ].
    cbn [trace emit]. rewrite <- app_assoc. reflexivity.
  - do 3 eexists. split; [ reflexivity | ].
    cbn [trace emit]. rewrite <- app_assoc. reflexivity.
Qed.

Lemma stop_swallows_teardown_failure_witness :
  stop Sample.offline Sample.running
  = (Returned tt,
     grow Sample.running
       [EvDestroy (Some (Error "ECONNREFUSED"));
        EvLog Err [LStr "Error stopping Discord bot:"; LErr (Error "ECONNREFUSED")]])
  /\ isRunning (snd (stop Sample.offline Sample.running)) = true
  /\ client (snd (stop Sample.offline Sample.running)) = client Sample.running.
Proof.
  destruct (stop_swallows_teardown_failure Sample.offline Sample.running _
              (Error "ECONNREFUSED") eq_refl eq_refl eq_refl)
    as (Hstop & Hrun & Hclient & _).
  repeat split; assumption.
Defined.

(* ================================================================== *)
(** ** Configuration read from the process environment *)

Section Configuration.

Import ProcessEnv.

Variable penv : process_env.

Lemma orDefault_empty o : orDefault o "" = "" <-> missing o = true.
Proof.
  unfold orDefault, missing. destruct o as [s |]; [ | tauto ].
  destruct (String.eqb s "") eqn:Hs; [ tauto | ].
  apply String.eqb_neq in Hs. split; [ contradiction | discriminate ].
Qed.

Lemma orDefault_filled o d : d <> "" -> orDefault o d <> "".
Proof.
  intros Hd. unfold orDefault. destruct o as [s |]; [ | exact Hd ].
  destruct (String.eqb s "") eqn:Hs; [ exact Hd | now apply String.eqb_neq ].
Qed.

(** X1: whatever the process environment holds, the receiver URL of the
    configuration is never empty, no allowed channel is the empty string, and
    with [ALLOWED_CHANNELS] unset or empty the allow-list is empty, so that
    no message is filtered. *)
Theorem config_fills_defaults :
  RECEIVER_URL (config penv) <> ""
  /\ (forall c, In c (ALLOWED_CHANNELS (config penv)) -> c <> "")
  /\ (missing (penv "ALLOWED_CHANNELS") = true ->
      ALLOWED_CHANNELS (config penv) = []
      /\ forall message, filtered (config penv) message = false).
Proof.
  split; [ | split ].
  - cbn [config RECEIVER_URL]. apply orDefault_filled. discriminate.
  - intros c Hc. cbn [config ALLOWED_CHANNELS] in Hc.
    apply filter_In in Hc. destruct Hc as [_ Hc].
    unfold nonEmpty in Hc. apply negb_true_iff in Hc. now apply String.eqb_neq.
  - intros Hunset. apply orDefault_empty in Hunset.
    assert (Hnone : ALLOWED_CHANNELS (config penv) = []).
    { cbn [config ALLOWED_CHANNELS]. now rewrite Hunset. }
    split; [ exact Hnone | ].
    intros message. unfold filtered. rewrite Hnone. cbn [length Nat.ltb Nat.leb].
    now rewrite andb_false_r.
Qed.

(** X2: on the configuration the getter builds, [validateConfig] fails
    exactly when [DISCORD_BOT_TOKEN] or [IMAGE_RECEIVER_TOKEN] is unset or
    empty, the bot token being reported first; the third check can never
    fire, an unset or empty [RECEIVER_URL] having been replaced by the
    default. *)
Theorem validateConfig_reports_tokens_only env w :
  validateConfig (config penv) env w
  = if missing (penv "DISCORD_BOT_TOKEN") then
      (Thrown (Error "Missing DISCORD_BOT_TOKEN in environment variables"), w)
    else if missing (penv "IMAGE_RECEIVER_TOKEN") then
      (Thrown (Error "Missing IMAGE_RECEIVER_TOKEN in environment variables"), w)
    else (Returned tt, w).
Proof.
  unfold validateConfig. cbn [config BOT_TOKEN RECEIVER_TOKEN RECEIVER_URL].
  destruct (missing (penv "DISCORD_BOT_TOKEN")); [ reflexivity | ].
  destruct (missing (penv "IMAGE_RECEIVER_TOKEN")) eqn:Htok.
  - apply orDefault_empty in Htok. now rewrite Htok.
  - destruct (String.eqb (orDefault (penv "IMAGE_RECEIVER_TOKEN") "") "") eqn:Hempty.
    + apply String.eqb_eq, orDefault_empty in Hempty. congruence.
    + destruct (String.eqb (orDefault (penv "RECEIVER_URL")
                              "http://localhost:3000/api/receiver/image") "") eqn:Hurl;
        [ | reflexivity ].
      apply String.eqb_eq in Hurl. exfalso. revert Hurl.
      apply orDefault_filled. discriminate.
Qed.

End Configuration.

Example config_of_a_typical_environment :
  ProcessEnv.config
    (fun name =>
       if String.eqb name "DISCORD_BOT_TOKEN" then Some "bot-token"
       else if String.eqb name "ALLOWED_CHANNELS" then Some " 100, 200 ,,"
       else if String.eqb name "RECEIVER_URL" then Some ""
       else None)
  = {| BOT_TOKEN := Some "bot-token";
       RECEIVER_URL := "http://localhost:3000/api/receiver/image";
       RECEIVER_TOKEN := "";
       ALLOWED_CHANNELS := ["100"; "200"] |}.
Proof. reflexivity. Qed.

(* ================================================================== *)
(** ** Lifecycle: the paths through [start] *)

Section Startup.

Variable cfg : Config.
Variable env : environment.
Variable w : world.

Hypothesis stopped : isRunning w = false.

Lemma configured_inv :
  configured cfg = true ->
  missing (BOT_TOKEN cfg) = false /\ String.eqb (RECEIVER_TOKEN cfg) "" = false
  /\ String.eqb (RECEIVER_URL cfg) "" = false.
Proof.
  unfold configured. rewrite !andb_true_iff, !negb_true_iff. tauto.
Qed.

Lemma start_succeeds :
  configured cfg = true -> gateway_login env (trace w) (BOT_TOKEN cfg) = None ->
  start cfg env w
  = (Returned tt,
     {| trace := trace w ++ [EvLogin (BOT_TOKEN cfg) None;
                             EvLog Info [LStr "🤖 Discord bot service started successfully"]];
        client := Some listening;
        isRunning := true |}).
Proof.
  intros (Hb & Ht & Hu)%configured_inv Hlogin. lifecycle.
  rewrite stopped, Hb, Ht, Hu. cbn [client trace isRunning]. rewrite Hlogin.
  unfold emit. cbn [trace client isRunning]. now rewrite <- app_assoc.
Qed.

(** X3: started on a service that is not running, with a valid
    configuration and a login the gateway accepts, [start] returns normally
    with [isRunning] true and a client carrying exactly one listener of each
    kind, the login with the bot token being its only gateway call; a [stop]
    whose teardown succeeds then brings both fields back to their initial
    values. *)
Theorem start_then_stop_round_trip :
  configured cfg = true -> gateway_login env (trace w) (BOT_TOKEN cfg) = None ->
  gateway_destroy env
    (trace w ++ [EvLogin (BOT_TOKEN cfg) None;
                 EvLog Info [LStr "🤖 Discord bot service started successfully"]]) = None ->
  fst (start cfg env w) = Returned tt
  /\ isRunning (snd (start cfg env w)) = true
  /\ client (snd (start cfg env w)) = Some listening
  /\ trace (snd (start cfg env w))
     = trace w ++ [EvLogin (BOT_TOKEN cfg) None;
                   EvLog Info [LStr "🤖 Discord bot service started successfully"]]
  /\ fst (stop env (snd (start cfg env w))) = Returned tt
  /\ isRunning (snd (stop env (snd (start cfg env w)))) = false
  /\ client (snd (stop env (snd (start cfg env w)))) = None.
Proof.
  intros Hcfg Hlogin Hdestroy. rewrite (start_succeeds Hcfg Hlogin). cbn [fst snd].
  repeat split; lifecycle; cbn [trace client isRunning negb orb]; now rewrite Hdestroy.
Qed.

(** X4: when the gateway refuses the login, [start] throws that error with
    [isRunning] still false, but the client it created stays in
    [this.client] with its listeners; [stop] then returns without calling the
    teardown, so that client is never destroyed. *)
Theorem refused_login_leaves_the_client :
  forall e,
  configured cfg = true -> gateway_login env (trace w) (BOT_TOKEN cfg) = Some e ->
  fst (start cfg env w) = Thrown e
  /\ isRunning (snd (start cfg env w)) = false
  /\ client (snd (start cfg env w)) = Some listening
  /\ stop env (snd (start cfg env w)) = (Returned tt, snd (start cfg env w)).
Proof.
  intros e (Hb & Ht & Hu)%configured_inv Hlogin.
  assert (Hstart : start cfg env w
                   = (Thrown e,
                      {| trace := trace w ++ [EvLogin (BOT_TOKEN cfg) (Some e);
                                              EvLog Err [LStr "Failed to start Discord bot:";
                                                         LErr e]];
                         client := Some listening;
                         isRunning := false |})).
  { lifecycle. rewrite stopped, Hb, Ht, Hu. cbn [client trace isRunning]. rewrite Hlogin.
    unfold emit. cbn [trace client isRunning]. now rewrite <- app_assoc, stopped. }
  rewrite Hstart. cbn [fst snd]. repeat split.
Qed.

(** X5: with a configuration that fails validation, [start] throws before
    anything is created: no gateway call is made, and [this.client] and
    [isRunning] are left as they were. *)
Theorem invalid_configuration_starts_nothing :
  configured cfg = false ->
  exists e,
    start cfg env w
    = (Thrown e, grow w [EvLog Err [LStr "Failed to start Discord bot:"; LErr e]]).
Proof.
  unfold configured. intros Hbad. lifecycle. rewrite stopped.
  destruct (missing (BOT_TOKEN cfg)); [ eexists; reflexivity | ].
  destruct (String.eqb (RECEIVER_TOKEN cfg) ""); [ eexists; reflexivity | ].
  destruct (String.eqb (RECEIVER_URL cfg) ""); [ eexists; reflexivity | ].
  discriminate.
Qed.

End Startup.

Lemma start_then_stop_round_trip_witness :
  fst (start Sample.cfg (Sample.serving Sample.registeredBody false) Sample.stopped)
  = Returned tt
  /\ client (snd (stop (Sample.serving Sample.registeredBody false)
                    (snd (start Sample.cfg (Sample.serving Sample.registeredBody false)
                            Sample.stopped)))) = None.
Proof.
  destruct (start_then_stop_round_trip Sample.cfg
              (Sample.serving Sample.registeredBody false) Sample.stopped
              eq_refl eq_refl eq_refl eq_refl)
    as (Hstart & _ & _ & _ & _ & _ & Hclient).
  split; assumption.
Defined.

Lemma refused_login_leaves_the_client_witness :
  fst (start Sample.cfg Sample.offline Sample.stopped) = Thrown (Error "ECONNREFUSED")
  /\ client (snd (start Sample.cfg Sample.offline Sample.stopped)) = Some listening.
Proof.
  destruct (refused_login_leaves_the_client Sample.cfg Sample.offline Sample.stopped
              eq_refl (Error "ECONNREFUSED") eq_refl eq_refl)
    as (Hstart & _ & Hclient & _).
  split; assumption.
Defined.

Lemma invalid_configuration_starts_nothing_witness :
  exists e,
    start {| BOT_TOKEN := Some "bot-token"; RECEIVER_URL := "http://localhost:3000";
             RECEIVER_TOKEN := ""; ALLOWED_CHANNELS := [] |}
          Sample.offline Sample.stopped
    = (Thrown e,
       grow Sample.stopped [EvLog Err [LStr "Failed to start Discord bot:"; LErr e]]).
Proof.
  apply (invalid_configuration_starts_nothing
           {| BOT_TOKEN := Some "bot-token"; RECEIVER_URL := "http://localhost:3000";
              RECEIVER_TOKEN := ""; ALLOWED_CHANNELS := [] |}
           Sample.offline Sample.stopped eq_refl eq_refl).
Defined.

(** Whatever calls were made, [this.client] is empty or holds a client with
    one listener of each kind. *)
Lemma perform_keeps_listeners env w c :
  client w = None \/ client w = Some listening ->
  client (perform env w c) = None \/ client (perform env w c) = Some listening.
Proof.
  intros Hinv. destruct c as [cfg |]; cbn [perform]; lifecycle.
  - destruct (isRunning w); [ exact Hinv | ].
    destruct (missing (BOT_TOKEN cfg)); [ exact Hinv | ].
    destruct (String.eqb (RECEIVER_TOKEN cfg) ""); [ exact Hinv | ].
    destruct (String.eqb (RECEIVER_URL cfg) ""); [ exact Hinv | ].
    cbn [client trace isRunning].
    destruct (gateway_login env (trace w) (BOT_TOKEN cfg)); now right.
  - destruct (isRunning w), (client w) as [cl |] eqn:Hc; cbn [negb orb snd];
      try (rewrite Hc; exact Hinv).
    destruct (gateway_destroy env (trace w)); cbn [snd client emit];
      [ rewrite Hc; exact Hinv | now left ].
Qed.

(** X6: after any sequence of [start] and [stop] calls on a new service,
    whatever failed on the way, the client in [this.client], if there is
    one, has exactly one message listener and one ready listener: restarting
    never stacks a second callback on a client. *)
Theorem listeners_are_never_stacked calls env c :
  client (after calls env) = Some c ->
  onMessageCreate c = 1 /\ onceClientReady c = 1.
Proof.
  assert (Hinv : client (after calls env) = None
                 \/ client (after calls env) = Some listening).
  { unfold after. induction calls as [| k calls IH] using rev_ind.
    - now left.
    - rewrite fold_left_app. cbn [fold_left]. now apply perform_keeps_listeners. }
  intros Hc. destruct Hinv as [Hnone | Hsome]; [ congruence | ].
  rewrite Hsome in Hc. injection Hc as <-. split; reflexivity.
Qed.

Lemma listeners_are_never_stacked_witness :
  onMessageCreate listening = 1 /\ onceClientReady listening = 1.
Proof.
  apply (listeners_are_never_stacked
           [Start Sample.cfg; Stop; Start Sample.cfg; Start Sample.cfg]
           (Sample.serving Sample.registeredBody false) listening).
  reflexivity.
Defined.

(* ================================================================== *)
(** ** The status command *)


Section StatusCommand.

Variable cfg : Config.
Variable message : Message.






End StatusCommand.


(** The converse fails: an answer without an email is reported as an active
    registration, while an upload by the same author is refused with the
    registration prompt. *)
Example active_status_without_email_is_still_prompted :
  replies (trace (snd (handleMessage Sample.cfg (Sample.message None "!status" [])
                         (Sample.serving (VObj [("success", VBool true);
                                                ("registered", VBool true)]) false)
                         Sample.stopped)))
  = [ReplyStatusActive VUndefined]
  /\ replies (trace (snd (handleMessage Sample.cfg (Sample.message None "" [Sample.png])
                            (Sample.serving (VObj [("success", VBool true);
                                                   ("registered", VBool true)]) false)
                            Sample.stopped)))
     = [ReplyText REGISTER_FIRST; ReplyText SORRY].
Proof. split; reflexivity. Qed.

(* ================================================================== *)
(** ** The registration command: what the user is told *)

Section RegistrationReplies.

Variable cfg : Config.
Variable message : Message.

Hypothesis bare : JsString.trim (content message) = "!register".






End RegistrationReplies.


(* ================================================================== *)
(** ** The requests of one image forward *)

Section ForwardRequests.

Variable cfg : Config.
Variable message : Message.



End ForwardRequests.

(* ================================================================== *)
(** ** Messages without attachments, and messages of bots *)

Lemma blank_test content :
  negb (String.eqb content "") && (0 <? String.length (JsString.trim content))%nat
  = negb (String.eqb (JsString.trim content) "").
Proof.
  destruct content as [| c rest]; [ reflexivity | ].
  cbn [String.eqb negb andb].
  now destruct (JsString.trim (String c rest)).
Qed.

(** X11: a message that reaches the relay step without attachments never
    gets a reply.  It is forwarded, by exactly one POST of its trimmed text
    with the provenance fields, unless the text is blank or starts with [!];
    in those two cases no request is made at all. *)
Theorem text_is_forwarded_without_reply cfg message env w :
  relayed cfg message = true -> attachments message = [] ->
  exists new,
    handleMessage cfg message env w = (Returned tt, grow w new)
    /\ replies new = []
    /\ if String.eqb (JsString.trim (content message)) ""
          || JsString.startsWith (content message) "!"
       then fetches new = []
       else exists out, fetches new = [(textRequest cfg message, out)].
Proof.
  intros (Hbot & Hcmd & Hflt)%relayed_inv Hatts.
  rewrite handleMessage_catches, route_relay by assumption.
  unfold relay. rewrite Hatts. step. cbn [length Nat.ltb Nat.leb]. rewrite blank_test.
  destruct (String.eqb (JsString.trim (content message)) "") eqn:Hblank; cbn [negb orb].
  { step. eexists. split; [ ran_segments | split; reflexivity ]. }
  destruct (JsString.startsWith (content message) "!").
  { step. eexists. split; [ ran_segments | split; reflexivity ]. }
  step.
  match goal with
  | |- context [forwardText cfg message env ?w0] =>
      destruct (forwardText_effect cfg message env w0)
        as (b & seg & -> & _ & Hr & _ & _ & Hfp & Hposts)
  end.
  rewrite Hblank in Hposts. destruct Hposts as [out Hposts]. step.
  eexists. split; [ ran_segments | ].
  autorewrite with trace. rewrite Hr, Hfp, Hposts. split; [ reflexivity | ].
  exists out. reflexivity.
Qed.

Lemma text_is_forwarded_without_reply_witness :
  exists new,
    handleMessage Sample.cfg (Sample.message None "  lunch at noon " [])
      (Sample.serving Sample.registeredBody false) Sample.stopped
    = (Returned tt, grow Sample.stopped new)
    /\ replies new = []
    /\ exists out,
         fetches new
         = [(receiverPost Sample.cfg
               (FormField "text" (VStr "lunch at noon")
                :: provenance (Sample.message None "  lunch at noon " [])), out)].
Proof.
  apply (text_is_forwarded_without_reply Sample.cfg
           (Sample.message None "  lunch at noon " [])
           (Sample.serving Sample.registeredBody false) Sample.stopped);
    reflexivity.
Defined.

(** X12: a message written by a bot account is dropped whatever it holds,
    a command, images or text: no request is made and no reply is sent, by
    the registration-aware service and by the basic forwarder alike. *)
Theorem bot_messages_are_ignored cfg message env w :
  bot (author message) = true ->
  (exists new,
      handleMessage cfg message env w = (Returned tt, grow w new)
      /\ fetches new = [] /\ replies new = [])
  /\ BasicBot.handleMessage cfg message env w = (Returned tt, w).
Proof.
  intros Hbot. split.
  - rewrite handleMessage_catches, route_bot by assumption.
    eexists. split; [ reflexivity | split; reflexivity ].
  - unfold BasicBot.handleMessage, BasicBot.route, tryCatch. now rewrite Hbot.
Qed.

Lemma bot_messages_are_ignored_witness :
  exists new,
    handleMessage Sample.cfg
      {| id := "m2"; channelId := "300"; guildId := None;
         author := {| user_id := "7"; username := "relay"; discriminator := "0";
                      tag := "relay#0"; bot := true |};
         content := "!register"; attachments := [Sample.png] |}
      (Sample.serving Sample.registeredBody false) Sample.stopped
    = (Returned tt, grow Sample.stopped new)
    /\ fetches new = [] /\ replies new = [].
Proof.
  apply (bot_messages_are_ignored Sample.cfg
           {| id := "m2"; channelId := "300"; guildId := None;
              author := {| user_id := "7"; username := "relay"; discriminator := "0";
                           tag := "relay#0"; bot := true |};
              content := "!register"; attachments := [Sample.png] |}
           (Sample.serving Sample.registeredBody false) Sample.stopped eq_refl).
Defined.

(* ================================================================== *)
(** ** The attachment loop, interrupted or not *)

Section Prefix.

Variable cfg : Config.
Variable message : Message.
Variable env : environment.

Lemma handleAttachment_bounds att w :
  exists r new,
    handleAttachment cfg message att env w = (r, grow w new)
    /\ forwardedUrls new = (if isImage att then [att_url att] else [])
    /\ (length (posts new) <= length (forwardedUrls new))%nat.
Proof.
  destruct (isImage att) eqn:Himg.
  2: { destruct (handleAttachment_skip cfg message att env w Himg)
         as (new & Hrun & Hf & _ & Hurl & _).
       exists (Returned tt), new. repeat split; auto.
       assert (Hp : posts new = []).
       { clear - Hf. induction new as [| ev new IH]; [ reflexivity | ].
         destruct ev; try (apply IH; exact Hf). discriminate Hf. }
       rewrite Hp, Hurl. cbn; lia. }
  unfold handleAttachment. step. rewrite Himg. step.
  match goal with
  | |- context [forwardAttachment ?c ?m ?u ?n ?e ?w0] =>
      destruct (forwardAttachment_effect c m u n e w0)
        as (b & seg & -> & _ & Hone & Hurl & _)
  end.
  destruct (inGuild message); cbn [negb]; step.
  { do 2 eexists. split; [ ran_segments | ].
    autorewrite with trace. rewrite Hurl. simpl. rewrite ?app_nil_r. now split. }
  destruct b; step;
    match goal with
    | |- context [channel_reply env ?t message ?p] =>
        destruct (channel_reply env t message p) as [e |]
    end;
    (do 2 eexists; split; [ ran_segments | ];
     autorewrite with trace; rewrite Hurl; simpl; rewrite ?app_nil_r; now split).
Qed.

Lemma forEach_prefix atts :
  forall w,
  exists r new dropped,
    forEach atts (handleAttachment cfg message) env w = (r, grow w new)
    /\ forwardedUrls new ++ dropped = map att_url (filter isImage atts)
    /\ (length (posts new) <= length (forwardedUrls new))%nat
    /\ (r = Returned tt -> dropped = []).
Proof.
  induction atts as [| att atts IH]; intros w.
  - exists (Returned tt), [], []. split; [ ran | repeat split; cbn; lia ].
  - cbn [forEach filter]. unfold bind.
    destruct (handleAttachment_bounds att w) as (r1 & seg & -> & Hurl & Hposts).
    assert (Hhead : map att_url (if isImage att then att :: filter isImage atts
                                 else filter isImage atts)
                    = forwardedUrls seg ++ map att_url (filter isImage atts)).
    { rewrite Hurl. now destruct (isImage att). }
    rewrite Hhead.
    destruct r1 as [[] | e].
    + destruct (IH (grow w seg)) as (r & new & dropped & -> & Hurls & Hbound & Hall).
      exists r, (seg ++ new), dropped. split; [ ran_segments | ].
      autorewrite with trace. rewrite <- app_assoc, Hurls, !length_app.
      repeat split; [ lia | exact Hall ].
    + exists (Thrown e), seg, (map att_url (filter isImage atts)).
      split; [ ran_segments | ]. repeat split; [ exact Hposts | discriminate ].
Qed.

(** X13: whatever the environment does, the images of a message that
    reaches the relay step are forwarded in the order of the attachments and
    without gaps: the forwarded URLs are a prefix of the image attachments'
    URLs.  All of them are forwarded when no exception reached
    [handleMessage]'s catch block, and there are never more uploads than
    entries of [forwardAttachment]. *)
Theorem images_are_forwarded_in_order w :
  relayed cfg message = true -> attachments message <> [] ->
  exists new dropped,
    handleMessage cfg message env w = (Returned tt, grow w new)
    /\ forwardedUrls new ++ dropped
       = map att_url (filter isImage (attachments message))
    /\ (length (posts new) <= length (forwardedUrls new))%nat
    /\ (handlerErrors new = [] -> dropped = []).
Proof.
  intros (Hbot & Hcmd & Hflt)%relayed_inv Hsome.
  rewrite handleMessage_catches, route_relay by assumption.
  unfold relay. step.
  destruct (attachments message) as [| att atts] eqn:Hatts; [ congruence | ].
  cbn [length Nat.ltb Nat.leb].
  match goal with
  | |- context [forEach _ _ env ?w0] =>
      destruct (forEach_prefix (att :: atts) w0)
        as (r & new & dropped & -> & Hurls & Hbound & Hall)
  end.
  destruct (received_silent message) as (_ & Rp & _ & Ru & _).
  match goal with
  | |- context [grow (emit ?ev _) new] => set (line := ev)
  end.
  assert (Lp : posts [line] = []) by reflexivity.
  assert (Lu : forwardedUrls [line] = []) by reflexivity.
  destruct r as [[] | e].
  - exists (received message ++ [line] ++ new), dropped.
    split; [ eapply run_eq; [ reflexivity | grown | now rewrite !app_assoc ] | ].
    autorewrite with trace. rewrite Rp, Ru, Lp, Lu. cbn [app].
    repeat split; auto.
  - destruct (caught_silent e) as (_ & Cp & _ & Cu & _).
    exists (received message ++ [line] ++ new ++ caught e), dropped.
    split; [ eapply run_eq; [ reflexivity | grown | now rewrite !app_assoc ] | ].
    autorewrite with trace. rewrite Rp, Ru, Lp, Lu, Cp, Cu. cbn [app].
    rewrite !app_nil_r. repeat split; auto.
    intros Hnone. apply app_eq_nil in Hnone. destruct Hnone as [_ Hnone].
    apply app_eq_nil in Hnone. destruct Hnone as [_ Hnone].
    apply app_eq_nil in Hnone. destruct Hnone as [_ Hnone]. discriminate Hnone.
Qed.

End Prefix.

Lemma images_are_forwarded_in_order_witness :
  exists new dropped,
    handleMessage Sample.cfg (Sample.message None "" [Sample.png; Sample.pdf; Sample.png])
      (Sample.serving Sample.registeredBody true) Sample.stopped
    = (Returned tt, grow Sample.stopped new)
    /\ forwardedUrls new ++ dropped
       = ["https://cdn.example/cat.png"; "https://cdn.example/cat.png"]
    /\ (length (posts new) <= length (forwardedUrls new))%nat.
Proof.
  destruct (images_are_forwarded_in_order Sample.cfg
              (Sample.message None "" [Sample.png; Sample.pdf; Sample.png])
              (Sample.serving Sample.registeredBody true) Sample.stopped eq_refl)
    as (new & dropped & Hrun & Hurls & Hbound & _).
  - discriminate.
  - now exists new, dropped.
Defined.

(* ================================================================== *)
(** ** The basic forwarder *)

Section Basic.

Variable cfg : Config.
Variable message : Message.

Lemma basic_forwardAttachment_effect url name env w :
  exists b new fetched,
    BasicBot.forwardAttachment cfg message url name env w = (Returned b, grow w new)
    /\ b = verdict (posts new) /\ replies new = []
    /\ fetches new = (get url, fetched) :: posts new
    /\ (posts new = []
        \/ exists res buffer out,
             fetched = Responded res /\ ok res = true /\ bodyBytes res = Some buffer
             /\ posts new = [(basicImageRequest cfg message name res buffer, out)]).
Proof.
  unfold BasicBot.forwardAttachment. step.
  destruct (net_fetch env _ (get url)) as [e | res] eqn:Efetch; step.
  { do 3 eexists. split; [ ran | repeat split; now left ]. }
  destruct (ok res) eqn:Hok; cbn [negb]; step.
  2: { do 3 eexists. split; [ ran | repeat split; now left ]. }
  unfold arrayBuffer. destruct (bodyBytes res) as [buffer |] eqn:Hbytes; step.
  2: { do 3 eexists. split; [ ran | repeat split; now left ]. }
  fold (basicImageRequest cfg message name res buffer).
  destruct (net_fetch env _ (basicImageRequest cfg message name res buffer))
    as [e | r] eqn:Eup; step.
  { do 3 eexists. split; [ ran | ]. repeat split.
    right. do 3 eexists. repeat split; eauto. }
  unfold json. assert (Hacc := accepted_responded r).
  destruct (bodyJson r) as [body |]; step.
  2: { do 3 eexists. split; [ ran | ]. repeat split.
       - change (false = accepted (Responded r)). now rewrite Hacc.
       - right. do 3 eexists. repeat split; eauto. }
  destruct (ok r); cbn [negb orb andb] in *;
    [ destruct (truthy body); cbn [negb] in * | ];
    (do 3 eexists; split; [ ran | ]; repeat split;
     [ match goal with |- ?b = _ => change (b = accepted (Responded r)) end;
       now rewrite Hacc
     | right; do 3 eexists; repeat split; eauto ]).
Qed.

Lemma basic_forwardText_effect env w :
  exists b new,
    BasicBot.forwardText cfg message env w = (Returned b, grow w new)
    /\ replies new = []
    /\ if String.eqb (JsString.trim (content message)) "" then new = []
       else exists out, fetches new = [(textRequest cfg message, out)]
                        /\ b = accepted out.
Proof.
  unfold BasicBot.forwardText. step.
  destruct (String.eqb (JsString.trim (content message)) "").
  { exists false, []. split; [ ran | split; reflexivity ]. }
  step. fold (textRequest cfg message).
  destruct (net_fetch env _ (textRequest cfg message)) as [e | r] eqn:Eout; step.
  { do 2 eexists. split; [ ran | ]. split; [ reflexivity | ].
    eexists; split; reflexivity. }
  unfold json. assert (Hacc := accepted_responded r).
  destruct (bodyJson r) as [body |]; step.
  2: { do 2 eexists. split; [ ran | ]. split; [ reflexivity | ].
       eexists; split; [ reflexivity | now rewrite Hacc ]. }
  destruct (ok r); cbn [negb orb andb] in *;
    [ destruct (truthy body); cbn [negb] in * | ];
    (do 2 eexists; split; [ ran | ]; split; [ reflexivity | ];
     eexists; split; [ reflexivity | now rewrite Hacc ]).
Qed.

Hypothesis human : bot (author message) = false.
Hypothesis allowed : filtered cfg message = false.

(** X14: in the basic forwarder a message with one image attachment gets no
    reply but the acknowledgment: exactly one in a direct message,
    affirmative when the upload was accepted and apologetic otherwise, and
    none at all in a guild channel.  The first request is the fetch of the
    attachment, no account being looked up. *)
Theorem basic_image_is_only_acknowledged att env w :
  attachments message = [att] -> isImage att = true ->
  exists new fetched,
    BasicBot.handleMessage cfg message env w = (Returned tt, grow w new)
    /\ fetches new = (get (att_url att), fetched) :: posts new
    /\ (length (posts new) <= 1)%nat
    /\ replies new
       = (if inGuild message then []
          else [ReplyText (if verdict (posts new) then GOT_IT else SORRY)]).
Proof.
  intros Hatts Himg.
  unfold BasicBot.handleMessage, BasicBot.route, BasicBot.handleAttachment.
  rewrite human, allowed, Hatts. cbn [length Nat.ltb Nat.leb forEach].
  rewrite Himg. step.
  destruct (basic_forwardAttachment_effect (att_url att) (nameArg att) env w)
    as (b & seg & fetched & -> & Hb & Hr & Hf & Hp).
  assert (Hone : (length (posts seg) <= 1)%nat).
  { destruct Hp as [-> | (res & buffer & out & _ & _ & _ & ->)]; cbn; lia. }
  destruct (inGuild message); cbn [negb]; step.
  { exists seg, fetched. split; [ ran_segments | ]. repeat split; auto. }
  destruct b; step;
    match goal with
    | |- context [channel_reply env ?t message ?p] =>
        destruct (channel_reply env t message p) as [e |]
    end; step;
    (do 2 eexists; split; [ ran_segments | ];
     autorewrite with trace; rewrite Hr, Hf; simpl; rewrite ?app_nil_r, <- ?Hb;
     repeat split; auto).
Qed.

(** X15: in the basic forwarder a message without attachments never gets a
    reply, and it is forwarded by exactly one POST of its trimmed text
    whenever that text is not blank: there are no commands, a text starting
    with [!] (such as [!register]) is forwarded like any other.  A blank
    message leaves no trace at all. *)
Theorem basic_text_is_always_forwarded env w :
  attachments message = [] ->
  exists new,
    BasicBot.handleMessage cfg message env w = (Returned tt, grow w new)
    /\ replies new = []
    /\ if String.eqb (JsString.trim (content message)) "" then new = []
       else exists out, fetches new = [(textRequest cfg message, out)].
Proof.
  intros Hatts.
  unfold BasicBot.handleMessage, BasicBot.route.
  rewrite human, allowed, Hatts. cbn [length Nat.ltb Nat.leb]. rewrite blank_test.
  destruct (basic_forwardText_effect env w) as (b & seg & Hrun & Hr & Hseg).
  destruct (String.eqb (JsString.trim (content message)) "") eqn:Hblank; cbn [negb].
  { step. exists []. split; [ ran | split; reflexivity ]. }
  step. rewrite Hrun. step.
  destruct Hseg as (out & Hf & _).
  exists seg. split; [ ran_segments | ]. split; [ exact Hr | now exists out ].
Qed.

End Basic.

Lemma basic_image_is_only_acknowledged_witness :
  exists new fetched,
    BasicBot.handleMessage Sample.cfg (Sample.message (Some "900") "" [Sample.png])
      (Sample.serving Sample.unregisteredBody false) Sample.stopped
    = (Returned tt, grow Sample.stopped new)
    /\ fetches new = (get "https://cdn.example/cat.png", fetched) :: posts new
    /\ (length (posts new) <= 1)%nat
    /\ replies new = [].
Proof.
  apply (basic_image_is_only_acknowledged Sample.cfg
           (Sample.message (Some "900") "" [Sample.png]) eq_refl eq_refl Sample.png
           (Sample.serving Sample.unregisteredBody false) Sample.stopped);
    reflexivity.
Defined.

Lemma basic_text_is_always_forwarded_witness :
  exists new,
    BasicBot.handleMessage Sample.cfg (Sample.message None "!register" [])
      (Sample.serving Sample.registeredBody false) Sample.stopped
    = (Returned tt, grow Sample.stopped new)
    /\ replies new = []
    /\ exists out,
         fetches new
         = [(receiverPost Sample.cfg
               (FormField "text" (VStr "!register")
                :: provenance (Sample.message None "!register" [])), out)].
Proof.
  apply (basic_text_is_always_forwarded Sample.cfg (Sample.message None "!register" [])
           eq_refl eq_refl (Sample.serving Sample.registeredBody false) Sample.stopped).
  reflexivity.
Defined.
